(** * Heron Wellnest badge and achievements worker

    A shallow embedding of the badge evaluation worker: the activity-history
    queries of the four repositories (journal, gratitude, mood check-in,
    flip-and-feel), the badge ledger, the four evaluation passes of
    [BadgeWorkerService] and the Pub/Sub controller in front of them.

    Tables are lists of rows, SQL queries are list programs that follow the
    query text clause by clause, and the asynchronous service code is written
    in a small state-and-exception monad over the database. *)

From stdpp Require Import base decidable option list sorting strings gmap.
From Stdlib Require Import ZArith Lia.

Open Scope Z_scope.

(** ** The data model *)

(** A [timestamptz] column: microseconds since the Unix epoch. *)
Definition timestamp : Type := Z.

Definition usec_per_day : Z := 86400000000.

(** [DATE(t AT TIME ZONE 'UTC')]: the UTC calendar day of a timestamp, as a
    day number.  Subtracting an integer from a date moves it by that many
    days, which is subtraction on day numbers. *)
Definition DATE_UTC (t : timestamp) : Z := t `div` usec_per_day.

(** Rows of [journal_entries] (journalEntry.model.ts).  The encrypted text
    columns are never read by the worker. *)
Module JournalEntry.
Record t : Type := mk {
  journal_id : string;
  user_id : string;
  is_deleted : bool;
  created_at : timestamp;
  updated_at : timestamp
}.
End JournalEntry.

(** Rows of [gratitude_entries] (gratitudeEntry.model.ts). *)
Module GratitudeEntry.
Record t : Type := mk {
  gratitude_id : string;
  user_id : string;
  is_deleted : bool;
  created_at : timestamp;
  updated_at : timestamp
}.
End GratitudeEntry.

(** Rows of [mood_check_ins] (moodCheckIn.model.ts). *)
Module MoodCheckIn.
Record t : Type := mk {
  check_in_id : string;
  user_id : string;
  mood_1 : string;
  mood_2 : option string;
  mood_3 : option string;
  checked_in_at : timestamp
}.
End MoodCheckIn.

(** Rows of [flip_feel] (flipFeel.model.ts): one session. *)
Module FlipFeel.
Record t : Type := mk {
  flip_feel_id : string;
  user_id : string;
  started_at : option timestamp;
  finished_at : option timestamp
}.
End FlipFeel.

(** Rows of [flip_feel_responses] (flipFeelResponse.model.ts), with the
    foreign keys as the join columns hold them. *)
Module FlipFeelResponse.
Record t : Type := mk {
  response_id : string;
  flip_feel_id : string;
  question_id : string;
  choice_id : string;
  created_at : timestamp
}.
End FlipFeelResponse.

(** Rows of [flip_feel_questions] (flipFeelQuestions.model.ts). *)
Module FlipFeelQuestions.
Record t : Type := mk {
  question_id : string;
  question_text : string;
  category : string
}.
End FlipFeelQuestions.

(** ** Query results

    [AppDataSource.query] resolves to an array of rows; every query of the
    worker selects one boolean column, and the caller reads
    [result[0]?.col ?? false]. *)
Definition first_row_or_false (result : list bool) : bool :=
  default false (head result).

(** ** The streak query, shared by the four repositories

    The four [hasConsecutiveDays] queries differ only in the first common
    table expression, which selects the distinct UTC dates; the rest of the
    text is the same and is embedded once. *)
Module Streak.

(** [ROW_NUMBER() OVER (ORDER BY d)] over rows already in that order:
    numbering starts at the given value (SQL starts at 1). *)
Fixpoint number_rows {A : Type} (n : Z) (rows : list A) : list (Z * A) :=
  match rows with
  | [] => []
  | r :: rows' => (n, r) :: number_rows (n + 1) rows'
  end.

(** [consecutive_days]: each date with
    [date - (ROW_NUMBER() OVER (ORDER BY date))::integer AS grp]. *)
Record cd_row : Type := mk_cd { cd_date : Z; grp : Z }.

Definition consecutive_days (daily : list Z) : list cd_row :=
  (λ p : Z * Z, mk_cd p.2 (p.2 - p.1)) <$> number_rows 1 (merge_sort Z.le daily).

(** [streak_lengths]: [COUNT( * )] and [MAX(date)] per [grp]. *)
Record streak_row : Type :=
  mk_streak { streak_length : Z; last_date : option Z }.

Definition MAX (ds : list Z) : option Z :=
  foldr (λ d acc, Some (from_option (Z.max d) d acc)) None ds.

Definition streak_lengths (cd : list cd_row) : list streak_row :=
  (λ g, let rows := filter (λ r, grp r = g) cd in
        mk_streak (Z.of_nat (length rows)) (MAX (cd_date <$> rows)))
    <$> remove_dups (grp <$> cd).

(** [SELECT EXISTS(SELECT 1 FROM streak_lengths WHERE streak_length >= $2)]:
    one row, one column. *)
Definition query (daily : list Z) (consecutiveDays : Z) : list bool :=
  [ bool_decide (Exists (λ s, consecutiveDays ≤ streak_length s)
                   (streak_lengths (consecutive_days daily))) ].

End Streak.

(** ** The repositories *)

Module JournalEntryRepository.
Import JournalEntry.

(** [WHERE user_id = $1 AND is_deleted = false] *)
Definition qualifying (tbl : list t) (uid : string) : list t :=
  filter (λ e, user_id e = uid ∧ is_deleted e = false) tbl.

Definition hasFirstEntry (tbl : list t) (uid : string) : bool :=
  first_row_or_false [ bool_decide (qualifying tbl uid ≠ []) ].

(** [SELECT DISTINCT DATE(created_at AT TIME ZONE 'UTC') as entry_date] *)
Definition daily_entries (tbl : list t) (uid : string) : list Z :=
  remove_dups ((DATE_UTC ∘ created_at) <$> qualifying tbl uid).

Definition hasConsecutiveDays (tbl : list t) (uid : string)
    (consecutiveDays : Z) : bool :=
  first_row_or_false (Streak.query (daily_entries tbl uid) consecutiveDays).

(** [SELECT (COUNT( * ) >= $2) as "has_count"] *)
Definition hasReachedEntryCount (tbl : list t) (uid : string)
    (entryCount : Z) : bool :=
  first_row_or_false
    [ bool_decide (entryCount ≤ Z.of_nat (length (qualifying tbl uid))) ].
End JournalEntryRepository.

Module GratitudeEntryRepository.
Import GratitudeEntry.

Definition qualifying (tbl : list t) (uid : string) : list t :=
  filter (λ e, user_id e = uid ∧ is_deleted e = false) tbl.

Definition hasFirstEntry (tbl : list t) (uid : string) : bool :=
  first_row_or_false [ bool_decide (qualifying tbl uid ≠ []) ].

Definition hasReachedEntryCount (tbl : list t) (uid : string)
    (entryCount : Z) : bool :=
  first_row_or_false
    [ bool_decide (entryCount ≤ Z.of_nat (length (qualifying tbl uid))) ].

Definition daily_entries (tbl : list t) (uid : string) : list Z :=
  remove_dups ((DATE_UTC ∘ created_at) <$> qualifying tbl uid).

Definition hasConsecutiveDays (tbl : list t) (uid : string)
    (consecutiveDays : Z) : bool :=
  first_row_or_false (Streak.query (daily_entries tbl uid) consecutiveDays).
End GratitudeEntryRepository.

Module MoodCheckInRepository.
Import MoodCheckIn.

(** [WHERE user_id = $1]: the table has no soft-delete column. *)
Definition qualifying (tbl : list t) (uid : string) : list t :=
  filter (λ c, user_id c = uid) tbl.

Definition daily_checkins (tbl : list t) (uid : string) : list Z :=
  remove_dups ((DATE_UTC ∘ checked_in_at) <$> qualifying tbl uid).

Definition hasConsecutiveDays (tbl : list t) (uid : string)
    (consecutiveDays : Z) : bool :=
  first_row_or_false (Streak.query (daily_checkins tbl uid) consecutiveDays).
End MoodCheckInRepository.

Module FlipFeelRepository.

(** [WHERE user_id = $1 AND finished_at IS NOT NULL] *)
Definition completed (sessions : list FlipFeel.t) (uid : string)
    : list FlipFeel.t :=
  filter (λ f, FlipFeel.user_id f = uid ∧ FlipFeel.finished_at f ≠ None)
    sessions.

Definition hasFirstEntry (sessions : list FlipFeel.t) (uid : string) : bool :=
  first_row_or_false [ bool_decide (completed sessions uid ≠ []) ].

(** [flip_feel f INNER JOIN flip_feel_responses r ON f.flip_feel_id =
    r.flip_feel_id INNER JOIN flip_feel_questions q ON r.question_id =
    q.question_id] *)
Definition joined (sessions : list FlipFeel.t)
    (responses : list FlipFeelResponse.t)
    (questions : list FlipFeelQuestions.t)
    : list (FlipFeel.t * FlipFeelResponse.t * FlipFeelQuestions.t) :=
  f ← sessions;
  r ← filter (λ r, FlipFeel.flip_feel_id f = FlipFeelResponse.flip_feel_id r)
        responses;
  q ← filter (λ q, FlipFeelResponse.question_id r
                     = FlipFeelQuestions.question_id q) questions;
  [(f, r, q)].

(** The categories the query counts: [q.category] of the joined rows with
    [f.user_id = $1 AND f.finished_at IS NOT NULL AND
     q.category = ANY($3::text[])], under [DISTINCT]. *)
Definition answered_categories (sessions : list FlipFeel.t)
    (responses : list FlipFeelResponse.t)
    (questions : list FlipFeelQuestions.t)
    (uid : string) (validCategories : list string) : list string :=
  remove_dups
    ((λ row, FlipFeelQuestions.category row.2) <$>
     filter (λ row : FlipFeel.t * FlipFeelResponse.t * FlipFeelQuestions.t,
               FlipFeel.user_id row.1.1 = uid
               ∧ FlipFeel.finished_at row.1.1 ≠ None
               ∧ FlipFeelQuestions.category row.2 ∈ validCategories)
       (joined sessions responses questions)).

(** [SELECT (COUNT(DISTINCT q.category) >= $2)] with
    [$2 = validCategories.length]. *)
Definition hasCompletedAllCategories (sessions : list FlipFeel.t)
    (responses : list FlipFeelResponse.t)
    (questions : list FlipFeelQuestions.t)
    (uid : string) (validCategories : list string) : bool :=
  first_row_or_false
    [ bool_decide
        (Z.of_nat (length validCategories)
         ≤ Z.of_nat (length (answered_categories sessions responses
                               questions uid validCategories))) ].

(** [SELECT DISTINCT DATE(finished_at AT TIME ZONE 'UTC') as session_date] *)
Definition daily_sessions (sessions : list FlipFeel.t) (uid : string)
    : list Z :=
  remove_dups
    (omap (λ f, DATE_UTC <$> FlipFeel.finished_at f) (completed sessions uid)).

Definition hasConsecutiveDays (sessions : list FlipFeel.t) (uid : string)
    (consecutiveDays : Z) : bool :=
  first_row_or_false (Streak.query (daily_sessions sessions uid) consecutiveDays).
End FlipFeelRepository.

(** ** The badge ledger *)

(** Modelled from the spec: the model file of the grant table is not among
    the sources.  A grant record is a (user, badge name) pair with its
    grant timestamp; the service reads [badge_name] of the rows. *)
Module UserBadge.
Record t : Type := mk {
  user_id : string;
  badge_name : string;
  awarded_at : timestamp
}.
End UserBadge.

Module BadgesRepository.
Import UserBadge.

(** Modelled from the spec: badges.repository.ts is not among the sources;
    only its two calls in [BadgeWorkerService] are.  [GetGrants(user)]
    returns the user's current grants, empty if none. *)
Definition getUserBadges (tbl : list t) (uid : string) : list t :=
  filter (λ b, user_id b = uid) tbl.

Definition granted (tbl : list t) (uid name : string) : Prop :=
  Exists (λ b, user_id b = uid ∧ badge_name b = name) tbl.

(** Modelled from the spec: [Grant(user, badge_name)] inserts a grant
    record and is safe to call when the badge is already granted: no
    error, no duplicate, no effect beyond the first grant.  The write is
    atomic per (user, badge name). *)
Definition grantBadgeByName (tbl : list t) (uid name : string)
    (now : timestamp) : list t :=
  if decide (granted tbl uid name) then tbl else tbl ++ [mk uid name now].
End BadgesRepository.

(** ** The database and the asynchronous calls on it *)

Record Database : Type := mkDatabase {
  journal_entries : list JournalEntry.t;
  gratitude_entries : list GratitudeEntry.t;
  mood_check_ins : list MoodCheckIn.t;
  flip_feel : list FlipFeel.t;
  flip_feel_responses : list FlipFeelResponse.t;
  flip_feel_questions : list FlipFeelQuestions.t;
  user_badges : list UserBadge.t
}.

Definition set_user_badges (tbl : list UserBadge.t) (db : Database) : Database :=
  mkDatabase (journal_entries db) (gratitude_entries db) (mood_check_ins db)
    (flip_feel db) (flip_feel_responses db) (flip_feel_questions db) tbl.

(** The repository methods the service awaits; each is one round trip to
    storage. *)
Inductive StorageCall : Type :=
  | GetUserBadges (userId : string)
  | GrantBadgeByName (userId badgeName : string)
  | JournalHasFirstEntry (userId : string)
  | JournalHasConsecutiveDays (userId : string) (consecutiveDays : Z)
  | JournalHasReachedEntryCount (userId : string) (entryCount : Z)
  | FlipFeelHasFirstEntry (userId : string)
  | FlipFeelHasCompletedAllCategories (userId : string)
      (validCategories : list string)
  | FlipFeelHasConsecutiveDays (userId : string) (consecutiveDays : Z)
  | MoodHasConsecutiveDays (userId : string) (consecutiveDays : Z)
  | GratitudeHasFirstEntry (userId : string)
  | GratitudeHasReachedEntryCount (userId : string) (entryCount : Z)
  | GratitudeHasConsecutiveDays (userId : string) (consecutiveDays : Z).

(** What can be thrown: a storage call that fails, and the two JavaScript
    errors of the controller (reading a property of [null] or converting an
    unconvertible object to a string; decoding or parsing the message). *)
Inductive Error : Type :=
  | StorageError (call : StorageCall)
  | TypeError
  | DecodeError.

Inductive Outcome (A : Type) : Type :=
  | Resolved (a : A)
  | Rejected (e : Error).
Arguments Resolved {A} a.
Arguments Rejected {A} e.

(** An asynchronous computation over a state [W]: it resolves or rejects,
    and leaves the state it reached either way (nothing is rolled back). *)
Definition Async (W A : Type) : Type := W → Outcome A * W.

Definition Async_ret {W A : Type} (a : A) : Async W A := λ w, (Resolved a, w).

Definition Async_bind {W A B : Type} (m : Async W A) (k : A → Async W B)
    : Async W B :=
  λ w, match m w with
       | (Resolved a, w') => k a w'
       | (Rejected e, w') => (Rejected e, w')
       end.

Definition throw {W A : Type} (e : Error) : Async W A := λ w, (Rejected e, w).

Definition try_catch {W A : Type} (m : Async W A) (handler : Error → Async W A)
    : Async W A :=
  λ w, match m w with
       | (Resolved a, w') => (Resolved a, w')
       | (Rejected e, w') => handler e w'
       end.

Notation "x <- 'await' m ; k" := (Async_bind m (λ x, k))
  (at level 100, m at next level, k at level 200, right associativity,
   format "'[' x  <-  'await'  m ; '//' k ']'").
Notation "'await' m ; k" := (Async_bind m (λ _, k))
  (at level 100, m at next level, k at level 200, right associativity,
   format "'[' 'await'  m ; '//' k ']'").
Notation "'return_' a" := (Async_ret a) (at level 100, a at next level).

(** [console.error] and the logger calls leave the modelled state alone. *)
Definition console_error {W : Type} (e : Error) : Async W unit :=
  return_ ().

(** The world a pass runs in: the database, the clock, the storage calls
    made so far, and which of the coming storage calls fail (the head
    decides the next call; none fail once the list is used up). *)
Record World : Type := mkWorld {
  db : Database;
  now : timestamp;
  faults : list bool;
  trace : list StorageCall
}.

(** The write a storage call performs; only granting writes. *)
Definition effect (c : StorageCall) (t : timestamp) (d : Database) : Database :=
  match c with
  | GrantBadgeByName userId badgeName =>
      set_user_badges
        (BadgesRepository.grantBadgeByName (user_badges d) userId badgeName t) d
  | _ => d
  end.

(** One awaited storage call: it is recorded, it rejects if storage fails
    on it (and then writes nothing), and otherwise resolves to its result
    on the database as it was and performs its write. *)
Definition storage {A : Type} (c : StorageCall) (result : Database → A)
    : Async World A :=
  λ w, if default false (head (faults w))
       then (Rejected (StorageError c),
             mkWorld (db w) (now w) (tail (faults w)) (trace w ++ [c]))
       else (Resolved (result (db w)),
             mkWorld (effect c (now w) (db w)) (now w) (tail (faults w))
               (trace w ++ [c])).

(** [CategoryEnum], and the [validCategories] array of
    [flipAndFeelBadgeWorker]. *)
Definition validCategories : list string :=
  ["school"; "opposite_sex"; "peers"; "family"; "crises"; "emotions";
   "recreation"]%string.

(** Whether storage fails on the next call, and the world after a call. *)
Definition next_fails (w : World) : bool := default false (head (faults w)).

Definition after_call (c : StorageCall) (ok : bool) (w : World) : World :=
  mkWorld (if ok then effect c (now w) (db w) else db w) (now w)
    (tail (faults w)) (trace w ++ [c]).

(** ** The service *)

Module BadgeWorkerService.

(** [this.badges]: rule key to badge name. *)
Definition JOURNAL_FIRST_ENTRY : string := "New Beginnings".
Definition JOURNAL_3_STREAK : string := "Mindful Momentum".
Definition JOURNAL_7_STREAK : string := "Mind Gardener".
Definition JOURNAL_10_ENTRIES : string := "Voice of Reflection".
Definition JOURNAL_20_ENTRIES : string := "Journey Within".
Definition JOURNAL_30_ENTRIES : string := "Keeper of Insight".
Definition FLIP_AND_FEEL_FIRST : string := "First Step Inward".
Definition FLIP_AND_FEEL_ALL_CATEGORIES : string := "Emotional Explorer".
Definition FLIP_AND_FEEL_7_STREAK : string := "Steady Self-Reflector".
Definition GRATITUDE_FIRST_ENTRY : string := "Grateful Heart".
Definition GRATITUDE_10_ENTRIES : string := "Growing Gratitude".
Definition GRATITUDE_25_ENTRIES : string := "Mindful Appreciator".
Definition GRATITUDE_50_ENTRIES : string := "Beacon of Gratitude".
Definition GRATITUDE_100_ENTRIES : string := "Radiant Gratitude".
Definition GRATITUDE_3_STREAK : string := "Thankful Thinker".
Definition GRATITUDE_7_STREAK : string := "Appreciation Advocate".
Definition MOOD_CHECKIN_7_STREAK : string := "Steady Observer".
Definition MOOD_CHECKIN_14_STREAK : string := "Balanced Mind Keeper".

(** The repositories injected into the service, as awaited calls. *)
Definition badgesRepo_getUserBadges (userId : string)
    : Async World (list UserBadge.t) :=
  storage (GetUserBadges userId)
    (λ d, BadgesRepository.getUserBadges (user_badges d) userId).

Definition badgesRepo_grantBadgeByName (userId badgeName : string)
    : Async World unit :=
  storage (GrantBadgeByName userId badgeName) (λ _, ()).

Definition journalRepo_hasFirstEntry (userId : string) : Async World bool :=
  storage (JournalHasFirstEntry userId)
    (λ d, JournalEntryRepository.hasFirstEntry (journal_entries d) userId).

Definition journalRepo_hasConsecutiveDays (userId : string) (n : Z)
    : Async World bool :=
  storage (JournalHasConsecutiveDays userId n)
    (λ d, JournalEntryRepository.hasConsecutiveDays (journal_entries d) userId n).

Definition journalRepo_hasReachedEntryCount (userId : string) (n : Z)
    : Async World bool :=
  storage (JournalHasReachedEntryCount userId n)
    (λ d, JournalEntryRepository.hasReachedEntryCount (journal_entries d)
            userId n).

Definition flipFeelRepo_hasFirstEntry (userId : string) : Async World bool :=
  storage (FlipFeelHasFirstEntry userId)
    (λ d, FlipFeelRepository.hasFirstEntry (flip_feel d) userId).

Definition flipFeelRepo_hasCompletedAllCategories (userId : string)
    (categories : list string) : Async World bool :=
  storage (FlipFeelHasCompletedAllCategories userId categories)
    (λ d, FlipFeelRepository.hasCompletedAllCategories (flip_feel d)
            (flip_feel_responses d) (flip_feel_questions d) userId categories).

Definition flipFeelRepo_hasConsecutiveDays (userId : string) (n : Z)
    : Async World bool :=
  storage (FlipFeelHasConsecutiveDays userId n)
    (λ d, FlipFeelRepository.hasConsecutiveDays (flip_feel d) userId n).

Definition moodRepo_hasConsecutiveDays (userId : string) (n : Z)
    : Async World bool :=
  storage (MoodHasConsecutiveDays userId n)
    (λ d, MoodCheckInRepository.hasConsecutiveDays (mood_check_ins d) userId n).

Definition gratitudeRepo_hasFirstEntry (userId : string) : Async World bool :=
  storage (GratitudeHasFirstEntry userId)
    (λ d, GratitudeEntryRepository.hasFirstEntry (gratitude_entries d) userId).

Definition gratitudeRepo_hasReachedEntryCount (userId : string) (n : Z)
    : Async World bool :=
  storage (GratitudeHasReachedEntryCount userId n)
    (λ d, GratitudeEntryRepository.hasReachedEntryCount (gratitude_entries d)
            userId n).

Definition gratitudeRepo_hasConsecutiveDays (userId : string) (n : Z)
    : Async World bool :=
  storage (GratitudeHasConsecutiveDays userId n)
    (λ d, GratitudeEntryRepository.hasConsecutiveDays (gratitude_entries d)
            userId n).

Definition journalBadgeWorker (userId : string) : Async World unit :=
  try_catch
   ((* Get all user badges once for efficiency *)
    userBadges <- await badgesRepo_getUserBadges userId;
    let badgeNames : gset string :=
      list_to_set (UserBadge.badge_name <$> userBadges) in
    (* Check first entry badge *)
    await (if negb (bool_decide (JOURNAL_FIRST_ENTRY ∈ badgeNames)) then
             b <- await journalRepo_hasFirstEntry userId;
             if b then badgesRepo_grantBadgeByName userId JOURNAL_FIRST_ENTRY
             else return_ ()
           else return_ ());
    (* Check 3-day streak badge *)
    await (if negb (bool_decide (JOURNAL_3_STREAK ∈ badgeNames)) then
             b <- await journalRepo_hasConsecutiveDays userId 3;
             if b then badgesRepo_grantBadgeByName userId JOURNAL_3_STREAK
             else return_ ()
           else return_ ());
    (* Check 7-day streak badge *)
    await (if negb (bool_decide (JOURNAL_7_STREAK ∈ badgeNames)) then
             b <- await journalRepo_hasConsecutiveDays userId 7;
             if b then badgesRepo_grantBadgeByName userId JOURNAL_7_STREAK
             else return_ ()
           else return_ ());
    (* Check 10 entries badge *)
    await (if negb (bool_decide (JOURNAL_10_ENTRIES ∈ badgeNames)) then
             b <- await journalRepo_hasReachedEntryCount userId 10;
             if b then badgesRepo_grantBadgeByName userId JOURNAL_10_ENTRIES
             else return_ ()
           else return_ ());
    (* Check 20 entries badge *)
    await (if negb (bool_decide (JOURNAL_20_ENTRIES ∈ badgeNames)) then
             b <- await journalRepo_hasReachedEntryCount userId 20;
             if b then badgesRepo_grantBadgeByName userId JOURNAL_20_ENTRIES
             else return_ ()
           else return_ ());
    (* Check 30 entries badge *)
    await (if negb (bool_decide (JOURNAL_30_ENTRIES ∈ badgeNames)) then
             b <- await journalRepo_hasReachedEntryCount userId 30;
             if b then badgesRepo_grantBadgeByName userId JOURNAL_30_ENTRIES
             else return_ ()
           else return_ ());
    return_ ())
   (λ error, await console_error error; throw error).

Definition flipAndFeelBadgeWorker (userId : string) : Async World unit :=
  try_catch
   ((* Get all user badges once for efficiency *)
    userBadges <- await badgesRepo_getUserBadges userId;
    let badgeNames : gset string :=
      list_to_set (UserBadge.badge_name <$> userBadges) in
    (* Check first flip and feel badge *)
    await (if negb (bool_decide (FLIP_AND_FEEL_FIRST ∈ badgeNames)) then
             b <- await flipFeelRepo_hasFirstEntry userId;
             if b then badgesRepo_grantBadgeByName userId FLIP_AND_FEEL_FIRST
             else return_ ()
           else return_ ());
    (* Check all categories badge *)
    await (if negb (bool_decide (FLIP_AND_FEEL_ALL_CATEGORIES ∈ badgeNames)) then
             b <- await flipFeelRepo_hasCompletedAllCategories userId validCategories;
             if b then badgesRepo_grantBadgeByName userId FLIP_AND_FEEL_ALL_CATEGORIES
             else return_ ()
           else return_ ());
    (* Check 7-day streak badge *)
    await (if negb (bool_decide (FLIP_AND_FEEL_7_STREAK ∈ badgeNames)) then
             b <- await flipFeelRepo_hasConsecutiveDays userId 7;
             if b then badgesRepo_grantBadgeByName userId FLIP_AND_FEEL_7_STREAK
             else return_ ()
           else return_ ());
    return_ ())
   (λ error, await console_error error; throw error).

Definition moodBadgeWorker (userId : string) : Async World unit :=
  try_catch
   ((* Get all user badges once for efficiency *)
    userBadges <- await badgesRepo_getUserBadges userId;
    let badgeNames : gset string :=
      list_to_set (UserBadge.badge_name <$> userBadges) in
    (* Check 7-day streak badge *)
    await (if negb (bool_decide (MOOD_CHECKIN_7_STREAK ∈ badgeNames)) then
             b <- await moodRepo_hasConsecutiveDays userId 7;
             if b then badgesRepo_grantBadgeByName userId MOOD_CHECKIN_7_STREAK
             else return_ ()
           else return_ ());
    (* Check 14-day streak badge *)
    await (if negb (bool_decide (MOOD_CHECKIN_14_STREAK ∈ badgeNames)) then
             b <- await moodRepo_hasConsecutiveDays userId 14;
             if b then badgesRepo_grantBadgeByName userId MOOD_CHECKIN_14_STREAK
             else return_ ()
           else return_ ());
    return_ ())
   (λ error, await console_error error; throw error).

Definition gratitudeBadgeWorker (userId : string) : Async World unit :=
  try_catch
   ((* Get all user badges once for efficiency *)
    userBadges <- await badgesRepo_getUserBadges userId;
    let badgeNames : gset string :=
      list_to_set (UserBadge.badge_name <$> userBadges) in
    (* Check first entry badge *)
    await (if negb (bool_decide (GRATITUDE_FIRST_ENTRY ∈ badgeNames)) then
             b <- await gratitudeRepo_hasFirstEntry userId;
             if b then badgesRepo_grantBadgeByName userId GRATITUDE_FIRST_ENTRY
             else return_ ()
           else return_ ());
    (* Check 10 entries badge *)
    await (if negb (bool_decide (GRATITUDE_10_ENTRIES ∈ badgeNames)) then
             b <- await gratitudeRepo_hasReachedEntryCount userId 10;
             if b then badgesRepo_grantBadgeByName userId GRATITUDE_10_ENTRIES
             else return_ ()
           else return_ ());
    (* Check 25 entries badge *)
    await (if negb (bool_decide (GRATITUDE_25_ENTRIES ∈ badgeNames)) then
             b <- await gratitudeRepo_hasReachedEntryCount userId 25;
             if b then badgesRepo_grantBadgeByName userId GRATITUDE_25_ENTRIES
             else return_ ()
           else return_ ());
    (* Check 50 entries badge *)
    await (if negb (bool_decide (GRATITUDE_50_ENTRIES ∈ badgeNames)) then
             b <- await gratitudeRepo_hasReachedEntryCount userId 50;
             if b then badgesRepo_grantBadgeByName userId GRATITUDE_50_ENTRIES
             else return_ ()
           else return_ ());
    (* Check 100 entries badge *)
    await (if negb (bool_decide (GRATITUDE_100_ENTRIES ∈ badgeNames)) then
             b <- await gratitudeRepo_hasReachedEntryCount userId 100;
             if b then badgesRepo_grantBadgeByName userId GRATITUDE_100_ENTRIES
             else return_ ()
           else return_ ());
    (* Check 3-day streak badge *)
    await (if negb (bool_decide (GRATITUDE_3_STREAK ∈ badgeNames)) then
             b <- await gratitudeRepo_hasConsecutiveDays userId 3;
             if b then badgesRepo_grantBadgeByName userId GRATITUDE_3_STREAK
             else return_ ()
           else return_ ());
    (* Check 7-day streak badge *)
    await (if negb (bool_decide (GRATITUDE_7_STREAK ∈ badgeNames)) then
             b <- await gratitudeRepo_hasConsecutiveDays userId 7;
             if b then badgesRepo_grantBadgeByName userId GRATITUDE_7_STREAK
             else return_ ()
           else return_ ());
    return_ ())
   (λ error, await console_error error; throw error).

End BadgeWorkerService.

(** ** The controller *)

(** The four activity domains, one worker method each. *)
Inductive ActivityDomain : Type := Journal | FlipAndFeel | MoodCheckIn | Gratitude.

(** What [JSON.parse] produces.  A number is only ever tested for being
    zero here.  An object is its own properties; where a key is repeated
    the last one stands, as [JSON.parse] has it. *)
#[local] Unset Elimination Schemes.
Inductive JSON : Type :=
  | JNull
  | JBool (b : bool)
  | JNumber (n : Z)
  | JString (s : string)
  | JArray (items : list JSON)
  | JObject (fields : list (string * JSON)).
#[local] Set Elimination Schemes.

Fixpoint assoc (name : string) (fields : list (string * JSON)) : option JSON :=
  match fields with
  | [] => None
  | (k, v) :: rest =>
      match assoc name rest with
      | Some v' => Some v'
      | None => if bool_decide (k = name) then Some v else None
      end
  end.

(** A JavaScript value read from a body or a property: [None] is
    [undefined]. *)
Definition truthy (v : option JSON) : bool :=
  match v with
  | None | Some JNull => false
  | Some (JBool b) => b
  | Some (JNumber n) => negb (bool_decide (n = 0))
  | Some (JString s) => negb (bool_decide (s = ""%string))
  | Some (JArray _) | Some (JObject _) => true
  end.

(** [v.name] for the property names the controller reads ([message],
    [data], [eventType], [userId]; no prototype defines any of them):
    a [TypeError] on [undefined] and [null], the own property of an object,
    [undefined] on anything else. *)
Definition get (v : option JSON) (name : string) : Outcome (option JSON) :=
  match v with
  | None | Some JNull => Rejected TypeError
  | Some (JObject fields) => Resolved (assoc name fields)
  | Some _ => Resolved None
  end.

(** Whether converting a parsed value to a string throws: an object with an
    own [toString] property (never callable after [JSON.parse], and the
    inherited [valueOf] returns the object), or an array that joins such an
    element. *)
Fixpoint to_string_throws (v : JSON) : bool :=
  match v with
  | JArray items => existsb to_string_throws items
  | JObject fields => bool_decide ("toString"%string ∈ fields.*1)
  | _ => false
  end.

(** A template literal over the given values, as an argument of a logger
    call or of a response: only whether it throws matters. *)
Definition template (values : list (option JSON)) : Outcome unit :=
  if existsb (λ v, from_option to_string_throws false v) values
  then Rejected TypeError else Resolved ().

(** [v === 'label'] *)
Definition strict_eq (v : option JSON) (label : string) : bool :=
  match v with
  | Some (JString s) => bool_decide (s = label)
  | _ => false
  end.

(** The responses the controller sends. *)
Inductive Response : Type :=
  | BadRequestInvalidMessageFormat
  | BadRequestNoDataField
  | BadRequestMissingEventTypeOrUserId
  | UnknownEventType (eventType : option JSON)
  | NoContent
  | InternalServerError (e : Error).

Definition status (r : Response) : Z :=
  match r with
  | NoContent => 204
  | InternalServerError _ => 500
  | _ => 400
  end.

Definition lift {W A : Type} (o : Outcome A) : Async W A := λ w, (o, w).

Section BadgeWorkerController.

(** The state the injected service runs on. *)
Context {S : Type}.

(** [this.badgeWorkerService]: the four worker methods, called with
    [payload.userId] as it was parsed. *)
Variable badgeWorkerService : ActivityDomain → option JSON → Async S unit.

(** [JSON.parse(Buffer.from(data, 'base64').toString('utf-8'))]: the parsed
    payload, or the error thrown on the way. *)
Variable decode : JSON → Outcome JSON.

(** The controller runs on the service state and records the worker
    methods it calls. *)
Record Handling : Type := mkHandling {
  service_state : S;
  worker_calls : list (ActivityDomain * option JSON)
}.

Definition call_worker (dom : ActivityDomain) (userId : option JSON)
    : Async Handling unit :=
  λ h, let (o, s') := badgeWorkerService dom userId (service_state h) in
       (o, mkHandling s' (worker_calls h ++ [(dom, userId)])).

Definition handleBadgeAwarding (body : option JSON) : Async Handling Response :=
  try_catch
   (let envelope := body in
    (* Validate envelope structure: !envelope || !envelope.message *)
    invalid <- await (if negb (truthy envelope) then return_ true
                      else message <- await lift (get envelope "message");
                           return_ (negb (truthy message)));
    if invalid : bool then return_ BadRequestInvalidMessageFormat else
    message <- await lift (get envelope "message");
    data <- await lift (get message "data");
    if negb (truthy data) then return_ BadRequestNoDataField else
    (* Decode the base64-encoded message data *)
    payload <- await lift (from_option decode (Rejected TypeError) data);
    (* Validate payload: !payload.eventType || !payload.userId *)
    eventType <- await lift (get (Some payload) "eventType");
    missing <- await (if negb (truthy eventType) then return_ true
                      else userId <- await lift (get (Some payload) "userId");
                           return_ (negb (truthy userId)));
    if missing : bool then return_ BadRequestMissingEventTypeOrUserId else
    userId <- await lift (get (Some payload) "userId");
    await lift (template [eventType; userId]);
    (* Route to appropriate badge worker based on eventType *)
    if strict_eq eventType "JOURNAL_ENTRY_CREATED" then
      await call_worker Journal userId;
      await lift (template [eventType; userId]);
      return_ NoContent
    else if strict_eq eventType "FLIP_FEEL_ENTRY_CREATED" then
      await call_worker FlipAndFeel userId;
      await lift (template [eventType; userId]);
      return_ NoContent
    else if strict_eq eventType "MOOD_CHECKIN_CREATED" then
      await call_worker MoodCheckIn userId;
      await lift (template [eventType; userId]);
      return_ NoContent
    else if strict_eq eventType "GRATITUDE_ENTRY_CREATED" then
      await call_worker Gratitude userId;
      await lift (template [eventType; userId]);
      return_ NoContent
    else
      await lift (template [eventType]);
      await lift (template [eventType]);
      return_ (UnknownEventType eventType))
   (λ error, return_ (InternalServerError error)).

(** The data of a body that passes the envelope checks: the body is an
    object whose [message] is an object with a truthy [data]. *)
Definition message_data (body : option JSON) : option JSON :=
  match body with
  | Some (JObject fields) =>
      match assoc "message" fields with
      | Some (JObject message) =>
          match assoc "data" message with
          | Some data => if truthy (Some data) then Some data else None
          | None => None
          end
      | _ => None
      end
  | _ => None
  end.

End BadgeWorkerController.

(** The field of a payload, [None] when the payload has no such field. *)
Definition payload_field (payload : JSON) (name : string) : option JSON :=
  match payload with
  | JObject fields => assoc name fields
  | _ => None
  end.


(** The event type that routes to the worker of a domain. *)
Definition event_name (dom : ActivityDomain) : string :=
  match dom with
  | Journal => "JOURNAL_ENTRY_CREATED"
  | FlipAndFeel => "FLIP_FEEL_ENTRY_CREATED"
  | MoodCheckIn => "MOOD_CHECKIN_CREATED"
  | Gratitude => "GRATITUDE_ENTRY_CREATED"
  end.


(** ** The environment configuration (env.config.ts) *)

Module EnvConfig.
Section schema.

(** JavaScript numbers, and [Number(s)] as [z.coerce.number()] accepts it:
    [None] where the coerced value is rejected (not a number). *)
Context {number : Type}.
Variable coerce_number : string → option number.

(** The numbers 8080 and 5432. *)
Variables (n8080 n5432 : number).

Record Env : Type := mkEnv {
  NODE_ENV : string;
  PORT : number;
  DB_HOST : string;
  DB_PORT : number;
  DB_USER : string;
  DB_PASSWORD : string;
  DB_NAME : string;
  PUBSUB_JOURNAL_TOPIC : string;
  PUBSUB_ACTIVITY_TOPIC : string
}.

(** The field schemas, on a variable of [process.env]: unset ([None]) or a
    string.  [None] as a result is a validation issue. *)

(** [z.string().default(d)], also with [.optional()] before the default. *)
Definition z_string_default (d : string) (v : option string) : option string :=
  Some (default d v).

(** [z.string().min(1, message).default(d)] *)
Definition z_string_min1_default (d : string) (v : option string)
    : option string :=
  match v with
  | None => Some d
  | Some s => if bool_decide (s = ""%string) then None else Some s
  end.

(** [z.enum(values).default(d)] *)
Definition z_enum_default (values : list string) (d : string)
    (v : option string) : option string :=
  match v with
  | None => Some d
  | Some s => if bool_decide (s ∈ values) then Some s else None
  end.

(** [z.coerce.number().default(d)] *)
Definition z_coerce_number_default (d : number) (v : option string)
    : option number :=
  match v with
  | None => Some d
  | Some s => coerce_number s
  end.

(** [envSchema.safeParse(process.env)]: the parsed configuration, or [None]
    when some field has an issue (the module then logs and calls
    [process.exit(1)]). *)
Definition safeParse (env : gmap string string) : option Env :=
  node_env ← z_enum_default ["development"; "production"; "test"]%string
                "development" (env !! "NODE_ENV"%string);
  port ← z_coerce_number_default n8080 (env !! "PORT"%string);
  db_host ← z_string_default "localhost" (env !! "DB_HOST"%string);
  db_port ← z_coerce_number_default n5432 (env !! "DB_PORT"%string);
  db_user ← z_string_min1_default "postgres" (env !! "DB_USER"%string);
  db_password ← z_string_default "" (env !! "DB_PASSWORD"%string);
  db_name ← z_string_min1_default "heron_wellnest_db"
              (env !! "DB_NAME"%string);
  journal_topic ← z_string_min1_default "journal-topic"
                    (env !! "PUBSUB_JOURNAL_TOPIC"%string);
  activity_topic ← z_string_min1_default "activity-topic"
                     (env !! "PUBSUB_ACTIVITY_TOPIC"%string);
  Some (mkEnv node_env port db_host db_port db_user db_password db_name
          journal_topic activity_topic).

End schema.

(** The variables the schema reads. *)
Definition variables : list string :=
  ["NODE_ENV"; "PORT"; "DB_HOST"; "DB_PORT"; "DB_USER"; "DB_PASSWORD";
   "DB_NAME"; "PUBSUB_JOURNAL_TOPIC"; "PUBSUB_ACTIVITY_TOPIC"]%string.

(** A sample coercion on the decimal ports used in the samples. *)
Definition sample_coerce (s : string) : option Z :=
  if bool_decide (s = "3000"%string) then Some 3000
  else if bool_decide (s = "5433"%string) then Some 5433
  else if bool_decide (s = ""%string) then Some 0
  else None.

(** A sample environment: a port, an empty host, and a variable the schema
    does not read; and the configuration parsed from it. *)
Definition sample_env : gmap string string :=
  {[ "PORT" := "3000"; "DB_HOST" := ""; "HOME" := "/root" ]}%string.

Definition sample_config : Env :=
  mkEnv "development" 3000 "" 5432 "postgres" "" "heron_wellnest_db"
    "journal-topic" "activity-topic".

End EnvConfig.

(** ** Specification-side notions used to state the properties *)

(** The dates contain a run of [k] day-adjacent dates with no gap. *)
Definition has_run (dates : list Z) (k : Z) : Prop :=
  ∃ d, ∀ i, 0 ≤ i < k → d + i ∈ dates.

(** The largest group size of the rank-based computation. *)
Definition max_group_size (dates : list Z) : Z :=
  foldr Z.max 0
    (Streak.streak_length <$>
     Streak.streak_lengths (Streak.consecutive_days (remove_dups dates))).

(** The [grp] column of rows numbered from [r], and the size of group [g]. *)
Definition grps (r : Z) (l : list Z) : list Z :=
  Streak.grp <$>
    ((λ p : Z * Z, Streak.mk_cd p.2 (p.2 - p.1)) <$> Streak.number_rows r l).

Definition occ (g : Z) (xs : list Z) : Z :=
  Z.of_nat (length (filter (λ x, x = g) xs)).

(** A category [c] has been answered in a completed session of the user:
    some response of a session of the user with a completion timestamp is
    to a question of category [c]. *)
Definition answered_in_completed_session (sessions : list FlipFeel.t)
    (responses : list FlipFeelResponse.t)
    (questions : list FlipFeelQuestions.t) (uid : string) (c : string) : Prop :=
  ∃ f r q, f ∈ sessions ∧ r ∈ responses ∧ q ∈ questions
    ∧ FlipFeel.user_id f = uid ∧ FlipFeel.finished_at f ≠ None
    ∧ FlipFeelResponse.flip_feel_id r = FlipFeel.flip_feel_id f
    ∧ FlipFeelResponse.question_id r = FlipFeelQuestions.question_id q
    ∧ FlipFeelQuestions.category q = c.

(** ** The rule catalogue and the shape of a pass *)

(** A badge rule: the badge it grants and the history query that decides
    it for a user. *)
Record BadgeRule : Type := mkRule {
  rule_badge : string;
  rule_check : string → StorageCall
}.

(** The catalogue, domain by domain, in the order the service checks the
    rules. *)
Definition catalogue (dom : ActivityDomain) : list BadgeRule :=
  match dom with
  | Journal =>
      [ mkRule BadgeWorkerService.JOURNAL_FIRST_ENTRY JournalHasFirstEntry;
        mkRule BadgeWorkerService.JOURNAL_3_STREAK
          (λ u, JournalHasConsecutiveDays u 3);
        mkRule BadgeWorkerService.JOURNAL_7_STREAK
          (λ u, JournalHasConsecutiveDays u 7);
        mkRule BadgeWorkerService.JOURNAL_10_ENTRIES
          (λ u, JournalHasReachedEntryCount u 10);
        mkRule BadgeWorkerService.JOURNAL_20_ENTRIES
          (λ u, JournalHasReachedEntryCount u 20);
        mkRule BadgeWorkerService.JOURNAL_30_ENTRIES
          (λ u, JournalHasReachedEntryCount u 30) ]
  | FlipAndFeel =>
      [ mkRule BadgeWorkerService.FLIP_AND_FEEL_FIRST FlipFeelHasFirstEntry;
        mkRule BadgeWorkerService.FLIP_AND_FEEL_ALL_CATEGORIES
          (λ u, FlipFeelHasCompletedAllCategories u validCategories);
        mkRule BadgeWorkerService.FLIP_AND_FEEL_7_STREAK
          (λ u, FlipFeelHasConsecutiveDays u 7) ]
  | MoodCheckIn =>
      [ mkRule BadgeWorkerService.MOOD_CHECKIN_7_STREAK
          (λ u, MoodHasConsecutiveDays u 7);
        mkRule BadgeWorkerService.MOOD_CHECKIN_14_STREAK
          (λ u, MoodHasConsecutiveDays u 14) ]
  | Gratitude =>
      [ mkRule BadgeWorkerService.GRATITUDE_FIRST_ENTRY GratitudeHasFirstEntry;
        mkRule BadgeWorkerService.GRATITUDE_10_ENTRIES
          (λ u, GratitudeHasReachedEntryCount u 10);
        mkRule BadgeWorkerService.GRATITUDE_25_ENTRIES
          (λ u, GratitudeHasReachedEntryCount u 25);
        mkRule BadgeWorkerService.GRATITUDE_50_ENTRIES
          (λ u, GratitudeHasReachedEntryCount u 50);
        mkRule BadgeWorkerService.GRATITUDE_100_ENTRIES
          (λ u, GratitudeHasReachedEntryCount u 100);
        mkRule BadgeWorkerService.GRATITUDE_3_STREAK
          (λ u, GratitudeHasConsecutiveDays u 3);
        mkRule BadgeWorkerService.GRATITUDE_7_STREAK
          (λ u, GratitudeHasConsecutiveDays u 7) ]
  end.

(** The evaluation pass of a domain. *)
Definition worker (dom : ActivityDomain) : string → Async World unit :=
  match dom with
  | Journal => BadgeWorkerService.journalBadgeWorker
  | FlipAndFeel => BadgeWorkerService.flipAndFeelBadgeWorker
  | MoodCheckIn => BadgeWorkerService.moodBadgeWorker
  | Gratitude => BadgeWorkerService.gratitudeBadgeWorker
  end.

(** What a history query answers on a database (the two ledger calls are
    not queries and answer nothing). *)
Definition answer (d : Database) (c : StorageCall) : bool :=
  match c with
  | GetUserBadges _ | GrantBadgeByName _ _ => false
  | JournalHasFirstEntry u =>
      JournalEntryRepository.hasFirstEntry (journal_entries d) u
  | JournalHasConsecutiveDays u n =>
      JournalEntryRepository.hasConsecutiveDays (journal_entries d) u n
  | JournalHasReachedEntryCount u n =>
      JournalEntryRepository.hasReachedEntryCount (journal_entries d) u n
  | FlipFeelHasFirstEntry u =>
      FlipFeelRepository.hasFirstEntry (flip_feel d) u
  | FlipFeelHasCompletedAllCategories u cats =>
      FlipFeelRepository.hasCompletedAllCategories (flip_feel d)
        (flip_feel_responses d) (flip_feel_questions d) u cats
  | FlipFeelHasConsecutiveDays u n =>
      FlipFeelRepository.hasConsecutiveDays (flip_feel d) u n
  | MoodHasConsecutiveDays u n =>
      MoodCheckInRepository.hasConsecutiveDays (mood_check_ins d) u n
  | GratitudeHasFirstEntry u =>
      GratitudeEntryRepository.hasFirstEntry (gratitude_entries d) u
  | GratitudeHasReachedEntryCount u n =>
      GratitudeEntryRepository.hasReachedEntryCount (gratitude_entries d) u n
  | GratitudeHasConsecutiveDays u n =>
      GratitudeEntryRepository.hasConsecutiveDays (gratitude_entries d) u n
  end.

Definition is_query (c : StorageCall) : bool :=
  match c with
  | GetUserBadges _ | GrantBadgeByName _ _ => false
  | _ => true
  end.

(** The grant set a pass loads: the badge names the user holds. *)
Definition grant_set (d : Database) (userId : string) : gset string :=
  list_to_set
    (UserBadge.badge_name
       <$> BadgesRepository.getUserBadges (user_badges d) userId).

(** The rules of a domain that newly qualify for a user: the badge is not
    in the grant set and the predicate holds on the history. *)
Definition newly_qualifying (d : Database) (userId : string)
    (dom : ActivityDomain) : list BadgeRule :=
  filter (λ r, (rule_badge r ∉ grant_set d userId)
               ∧ answer d (rule_check r userId) = true)
    (catalogue dom).

(** The [grantBadgeByName] invocations among storage calls, in order. *)
Definition grant_calls (calls : list StorageCall) : list (string * string) :=
  omap (λ c, match c with
             | GrantBadgeByName u b => Some (u, b)
             | _ => None
             end) calls.

(** The uniform evaluation loop over a rule list, and the pass around it. *)
Fixpoint evaluate (badgeNames : gset string) (userId : string)
    (rules : list BadgeRule) : Async World unit :=
  match rules with
  | [] => return_ ()
  | r :: rules' =>
      await (if negb (bool_decide (rule_badge r ∈ badgeNames)) then
               b <- await storage (rule_check r userId)
                            (λ d, answer d (rule_check r userId));
               if b
               then BadgeWorkerService.badgesRepo_grantBadgeByName userId
                      (rule_badge r)
               else return_ ()
             else return_ ());
      evaluate badgeNames userId rules'
  end.

Definition pass (userId : string) (rules : list BadgeRule) : Async World unit :=
  try_catch
    (userBadges <- await BadgeWorkerService.badgesRepo_getUserBadges userId;
     let badgeNames : gset string :=
       list_to_set (UserBadge.badge_name <$> userBadges) in
     evaluate badgeNames userId rules)
    (λ error, await console_error error; throw error).

(** The storage calls a pass makes when none fails. *)
Definition rule_calls (badgeNames : gset string) (d : Database)
    (userId : string) (r : BadgeRule) : list StorageCall :=
  if bool_decide (rule_badge r ∈ badgeNames) then []
  else rule_check r userId
       :: (if answer d (rule_check r userId)
           then [GrantBadgeByName userId (rule_badge r)] else []).

Definition plan (d : Database) (userId : string) (dom : ActivityDomain)
    : list StorageCall :=
  GetUserBadges userId
  :: (catalogue dom ≫= rule_calls (grant_set d userId) d userId).

(** Storage calls made one after the other, results dropped. *)
Fixpoint run_calls (calls : list StorageCall) : Async World unit :=
  match calls with
  | [] => return_ ()
  | c :: calls' => await storage c (λ _, ()); run_calls calls'
  end.

(** The writes of a list of storage calls that all succeeded. *)
Definition apply_effects (calls : list StorageCall) (t : timestamp)
    (d : Database) : Database :=
  foldl (λ d' c, effect c t d') d calls.

(** How many grant records the ledger holds for a (user, badge) pair. *)
Definition count_grants (tbl : list UserBadge.t) (uid name : string) : nat :=
  length (filter (λ b, UserBadge.user_id b = uid
                       ∧ UserBadge.badge_name b = name) tbl).

Definition at_most_one_grant (tbl : list UserBadge.t) : Prop :=
  ∀ uid name, (count_grants tbl uid name ≤ 1)%nat.

(** Grant requests arriving in some order, each an atomic write: the
    interleaving of whatever passes are running. *)
Definition grant_all (tbl : list UserBadge.t)
    (requests : list (string * string * timestamp)) : list UserBadge.t :=
  foldl (λ tbl' g, BadgesRepository.grantBadgeByName tbl' g.1.1 g.1.2 g.2)
    tbl requests.

(** ** Sample data *)

Definition day (d : Z) (usec : Z) : timestamp := d * usec_per_day + usec.

(** Entries of user u1 on three consecutive days (two on the last one) and
    a soft-deleted entry on the fourth; one entry of user u2. *)
Definition sample_journal : list JournalEntry.t :=
  [ JournalEntry.mk "j1" "u1" false (day 20000 100) (day 20000 100);
    JournalEntry.mk "j2" "u1" false (day 20001 7200000000) (day 20001 7200000000);
    JournalEntry.mk "j3" "u1" false (day 20002 5) (day 20002 5);
    JournalEntry.mk "j4" "u1" false (day 20002 86399999999) (day 20002 86399999999);
    JournalEntry.mk "j5" "u1" true (day 20003 50) (day 20004 0);
    JournalEntry.mk "j6" "u2" false (day 20003 50) (day 20003 50) ]%string.

(** The same table without the soft-deleted entry and in another order. *)
Definition sample_journal_undeleted : list JournalEntry.t :=
  [ JournalEntry.mk "j6" "u2" false (day 20003 50) (day 20003 50);
    JournalEntry.mk "j1" "u1" false (day 20000 100) (day 20000 100);
    JournalEntry.mk "j2" "u1" false (day 20001 7200000000) (day 20001 7200000000);
    JournalEntry.mk "j3" "u1" false (day 20002 5) (day 20002 5);
    JournalEntry.mk "j4" "u1" false (day 20002 86399999999) (day 20002 86399999999) ]%string.

Definition sample_gratitude : list GratitudeEntry.t :=
  [ GratitudeEntry.mk "g1" "u1" false (day 20000 1) (day 20000 1);
    GratitudeEntry.mk "g2" "u1" true (day 20001 1) (day 20002 1) ]%string.

Definition sample_gratitude_undeleted : list GratitudeEntry.t :=
  [ GratitudeEntry.mk "g1" "u1" false (day 20000 1) (day 20000 1) ]%string.

Definition sample_db : Database :=
  mkDatabase sample_journal sample_gratitude [] [] [] []
    [ UserBadge.mk "u2" "New Beginnings" (day 20003 60) ]%string.

Definition sample_world (faults : list bool) : World :=
  mkWorld sample_db (day 20002 86399999999) faults [].

(** Two sessions of user u1: a completed one answering six categories
    (one of them twice) and an unfinished one answering the seventh. *)
Definition sample_sessions : list FlipFeel.t :=
  [ FlipFeel.mk "s1" "u1" (Some (day 20000 0)) (Some (day 20000 900));
    FlipFeel.mk "s2" "u1" (Some (day 20001 0)) None ]%string.

Definition sample_questions : list FlipFeelQuestions.t :=
  [ FlipFeelQuestions.mk "q1" "t1" "school";
    FlipFeelQuestions.mk "q2" "t2" "opposite_sex";
    FlipFeelQuestions.mk "q3" "t3" "peers";
    FlipFeelQuestions.mk "q4" "t4" "family";
    FlipFeelQuestions.mk "q5" "t5" "crises";
    FlipFeelQuestions.mk "q6" "t6" "emotions";
    FlipFeelQuestions.mk "q7" "t7" "recreation";
    FlipFeelQuestions.mk "q8" "t8" "school" ]%string.

Definition sample_responses : list FlipFeelResponse.t :=
  [ FlipFeelResponse.mk "r1" "s1" "q1" "c1" (day 20000 10);
    FlipFeelResponse.mk "r2" "s1" "q2" "c1" (day 20000 20);
    FlipFeelResponse.mk "r3" "s1" "q3" "c1" (day 20000 30);
    FlipFeelResponse.mk "r4" "s1" "q4" "c1" (day 20000 40);
    FlipFeelResponse.mk "r5" "s1" "q5" "c1" (day 20000 50);
    FlipFeelResponse.mk "r6" "s1" "q6" "c1" (day 20000 60);
    FlipFeelResponse.mk "r8" "s1" "q8" "c1" (day 20000 70);
    FlipFeelResponse.mk "r7" "s2" "q7" "c1" (day 20001 10) ]%string.

(** The unfinished session completed. *)
Definition sample_sessions_completed : list FlipFeel.t :=
  [ FlipFeel.mk "s1" "u1" (Some (day 20000 0)) (Some (day 20000 900));
    FlipFeel.mk "s2" "u1" (Some (day 20001 0)) (Some (day 20001 900)) ]%string.

(** A Pub/Sub body whose data is the base64 text of the given name, and a
    decoder that knows three such payloads. *)
Definition sample_body (data : string) : option JSON :=
  Some (JObject [("message", JObject [("data", JString data);
                                      ("messageId", JString "1")]);
                 ("subscription", JString "badge-worker")])%string.

Definition sample_decode (data : JSON) : Outcome JSON :=
  match data with
  | JString s =>
      if bool_decide (s = "bnVsbA=="%string) then Resolved JNull
      else if bool_decide (s = "unknown-event"%string) then
        Resolved (JObject [("eventType", JString "BADGE_REVOKED");
                           ("userId", JString "u1")])%string
      else if bool_decide (s = "empty-user"%string) then
        Resolved (JObject [("eventType", JString "JOURNAL_ENTRY_CREATED");
                           ("userId", JString "");
                           ("timestamp", JString "2024-10-05T00:00:00Z")])%string
      else Rejected DecodeError
  | _ => Rejected TypeError
  end.

(** The service behind the controller, on user ids that are strings as its
    signature declares; a call with anything else is taken to reject. *)
Definition service_on_world (dom : ActivityDomain) (userId : option JSON)
    : Async World unit :=
  match userId with
  | Some (JString u) => worker dom u
  | _ => throw TypeError
  end.

(** The history of [d'] has every row of the history of [d], and maybe
    more: activity recorded since. *)
Definition history_grows (d d' : Database) : Prop :=
  journal_entries d ⊆+ journal_entries d'
  ∧ gratitude_entries d ⊆+ gratitude_entries d'
  ∧ mood_check_ins d ⊆+ mood_check_ins d'
  ∧ flip_feel d ⊆+ flip_feel d'
  ∧ flip_feel_responses d ⊆+ flip_feel_responses d'
  ∧ flip_feel_questions d ⊆+ flip_feel_questions d'.

(** The sample database a day later, with one more journal entry. *)
Definition sample_db_later : Database :=
  mkDatabase
    (JournalEntry.mk "j7" "u1" false (day 20003 9) (day 20003 9)
     :: sample_journal)%string
    sample_gratitude [] [] [] []
    [ UserBadge.mk "u2" "New Beginnings" (day 20003 60) ]%string.

(** A decoder that reads every message as a journal event of user u1. *)
Definition sample_decode_journal (data : JSON) : Outcome JSON :=
  Resolved (JObject [("eventType", JString "JOURNAL_ENTRY_CREATED");
                     ("userId", JString "u1");
                     ("timestamp", JString "2024-10-05T00:00:00Z")])%string.

(** * Properties *)

(** ** The streak computation *)

Section streak_theory.
Implicit Types (l : list Z) (r d g k : Z).

Lemma grps_cons r d l : grps r (d :: l) = (d - r) :: grps (r + 1) l.
Proof. reflexivity. Qed.

Lemma occ_nil g : occ g [] = 0.
Proof. reflexivity. Qed.

Lemma occ_cons g x xs :
  occ g (x :: xs) = (if decide (x = g) then 1 else 0) + occ g xs.
Proof.
  unfold occ. rewrite filter_cons. destruct (decide (x = g)); simpl; lia.
Qed.

Lemma occ_nonneg g xs : 0 ≤ occ g xs.
Proof. unfold occ. lia. Qed.

Lemma occ_pos_elem g xs : 0 < occ g xs → g ∈ xs.
Proof.
  induction xs as [|x xs IH]; [rewrite occ_nil; lia|].
  rewrite occ_cons. destruct (decide (x = g)) as [->|]; [left|].
  intros ?. right. apply IH. lia.
Qed.

Lemma occ_zero_above g xs : (∀ x, x ∈ xs → g < x) → occ g xs = 0.
Proof.
  intros Hgt. pose proof (occ_nonneg g xs).
  destruct (decide (0 < occ g xs)) as [Hpos|]; [|lia].
  apply occ_pos_elem, Hgt in Hpos. lia.
Qed.

(** Strictly increasing dates: the groups never decrease. *)
Lemma grps_lower_bound r d l x :
  StronglySorted Z.lt (d :: l) → x ∈ grps (r + 1) l → d - r ≤ x.
Proof.
  revert r d. induction l as [|e l IH]; intros r d Hs Hx.
  - inversion Hx.
  - rewrite grps_cons in Hx.
    apply StronglySorted_inv in Hs as [Hs Hd].
    assert (d < e) by (apply Forall_cons in Hd as [? _]; done).
    apply elem_of_cons in Hx as [->|Hx]; [lia|].
    apply (IH (r + 1) e) in Hx; [lia|done].
Qed.

Lemma group_is_run_after r d l i :
  StronglySorted Z.lt (d :: l) →
  1 ≤ i ≤ occ (d - r) (grps (r + 1) l) → d + i ∈ l.
Proof.
  revert r d i. induction l as [|e l IH]; intros r d i Hs Hi.
  - rewrite occ_nil in Hi. lia.
  - rewrite grps_cons, occ_cons in Hi.
    pose proof Hs as Hs'.
    apply StronglySorted_inv in Hs' as [Hs' Hd].
    assert (d < e) by (apply Forall_cons in Hd as [? _]; done).
    destruct (decide (e - (r + 1) = d - r)) as [Heq|Hne].
    + destruct (decide (i = 1)) as [->|].
      { replace (d + 1) with e by lia. left. }
      right. replace (d + i) with (e + (i - 1)) by lia.
      apply (IH (r + 1)); [done|]. rewrite Heq. lia.
    + rewrite occ_zero_above in Hi; [lia|].
      intros x Hx. apply (grps_lower_bound (r + 1) e) in Hx; [lia|done].
Qed.

Lemma group_gives_run r g k l :
  StronglySorted Z.lt l → 1 ≤ k ≤ occ g (grps r l) → has_run l k.
Proof.
  revert r. induction l as [|d l IH]; intros r Hs Hk.
  - rewrite occ_nil in Hk. lia.
  - rewrite grps_cons, occ_cons in Hk.
    destruct (decide (d - r = g)) as [<-|Hne].
    + exists d. intros i Hi. destruct (decide (i = 0)) as [->|].
      { rewrite Z.add_0_r. left. }
      right. apply (group_is_run_after r); [done|lia].
    + apply StronglySorted_inv in Hs as [Hs _].
      destruct (IH (r + 1) Hs) as [d0 Hd0]; [lia|].
      exists d0. intros i Hi. right. by apply Hd0.
Qed.

Lemma run_after_in_group r d k l :
  StronglySorted Z.lt (d :: l) →
  (∀ i, 1 ≤ i < k → d + i ∈ l) → k - 1 ≤ occ (d - r) (grps (r + 1) l).
Proof.
  revert r d k. induction l as [|e l IH]; intros r d k Hs Hrun.
  - rewrite occ_nil. destruct (decide (2 ≤ k)); [|lia].
    specialize (Hrun 1 ltac:(lia)). inversion Hrun.
  - rewrite grps_cons, occ_cons.
    pose proof (occ_nonneg (d - r) (grps (r + 1 + 1) l)).
    destruct (decide (2 ≤ k)) as [Hk|]; [|destruct (decide _); lia].
    pose proof Hs as Hs'.
    apply StronglySorted_inv in Hs' as [Hs' Hd].
    apply Forall_cons in Hd as [Hde Hdl].
    pose proof Hs' as Hs''.
    apply StronglySorted_inv in Hs'' as [_ He].
    rewrite Forall_forall in He.
    assert (e = d + 1) as ->.
    { specialize (Hrun 1 ltac:(lia)).
      apply elem_of_cons in Hrun as [?|Hin]; [done|].
      apply He in Hin. lia. }
    rewrite decide_True by lia.
    specialize (IH (r + 1) (d + 1) (k - 1) Hs').
    replace (d + 1 - (r + 1)) with (d - r) in IH by lia.
    enough (k - 1 - 1 ≤ occ (d - r) (grps (r + 1 + 1) l)) by lia.
    apply IH. intros i Hi.
    specialize (Hrun (i + 1) ltac:(lia)).
    apply elem_of_cons in Hrun as [?|Hin]; [lia|].
    by replace (d + 1 + i) with (d + (i + 1)) by lia.
Qed.

Lemma run_gives_group r k l :
  StronglySorted Z.lt l → 1 ≤ k → has_run l k → ∃ g, k ≤ occ g (grps r l).
Proof.
  revert r. induction l as [|e l IH]; intros r Hs Hk [d Hrun].
  - specialize (Hrun 0 ltac:(lia)). inversion Hrun.
  - pose proof Hs as Hs'.
    apply StronglySorted_inv in Hs' as [Hs' He].
    rewrite Forall_forall in He.
    destruct (decide (d = e)) as [->|Hne].
    + exists (e - r). rewrite grps_cons, occ_cons, decide_True by done.
      enough (k - 1 ≤ occ (e - r) (grps (r + 1) l)) by lia.
      apply run_after_in_group; [done|].
      intros i Hi. specialize (Hrun i ltac:(lia)).
      apply elem_of_cons in Hrun as [?|?]; [lia|done].
    + assert (e < d).
      { specialize (Hrun 0 ltac:(lia)). rewrite Z.add_0_r in Hrun.
        apply elem_of_cons in Hrun as [?|Hin]; [done|]. by apply He. }
      destruct (IH (r + 1) Hs' Hk) as [g Hg].
      { exists d. intros i Hi. specialize (Hrun i Hi).
        apply elem_of_cons in Hrun as [?|?]; [lia|done]. }
      exists g. rewrite grps_cons, occ_cons. destruct (decide _); lia.
Qed.


Lemma sorted_nodup_strict (l : list Z) :
  Sorted Z.le l → NoDup l → StronglySorted Z.lt l.
Proof.
  intros Hs Hn. apply (Sorted_StronglySorted _) in Hs.
  induction Hs as [|x l Hs IH Hx]; [constructor|].
  apply NoDup_cons in Hn as [Hx' Hn].
  constructor; [by apply IH|].
  rewrite Forall_forall in Hx |- *. intros y Hy.
  specialize (Hx y Hy). assert (x ≠ y) by (intros ->; done). lia.
Qed.

Lemma group_size_occ (g : Z) (cd : list Streak.cd_row) :
  Z.of_nat (length (filter (λ c, Streak.grp c = g) cd))
  = occ g (Streak.grp <$> cd).
Proof.
  unfold occ. f_equal. induction cd as [|c cd IH]; [done|].
  rewrite fmap_cons, !filter_cons.
  destruct (decide (Streak.grp c = g)); simpl; by rewrite IH.
Qed.

Lemma has_run_ext (l1 l2 : list Z) (k : Z) :
  (∀ x, x ∈ l1 ↔ x ∈ l2) → has_run l1 k ↔ has_run l2 k.
Proof.
  intros Heq. unfold has_run. by setoid_rewrite Heq.
Qed.

(** On distinct dates, some group of the rank computation has at least [k]
    rows exactly when the dates contain a gap-free run of [k] days. *)
Lemma streak_exists_iff (daily : list Z) (k : Z) :
  NoDup daily → 1 ≤ k →
  Exists (λ s, k ≤ Streak.streak_length s)
    (Streak.streak_lengths (Streak.consecutive_days daily))
  ↔ has_run daily k.
Proof.
  intros Hn Hk.
  set (sorted := merge_sort Z.le daily).
  assert (StronglySorted Z.lt sorted) as Hs.
  { apply sorted_nodup_strict; [apply (Sorted_merge_sort _)|].
    unfold sorted. by rewrite merge_sort_Permutation. }
  assert (∀ x, x ∈ sorted ↔ x ∈ daily) as Hmem.
  { intros x. unfold sorted. by rewrite merge_sort_Permutation. }
  rewrite <-(has_run_ext _ _ _ Hmem).
  unfold Streak.streak_lengths. rewrite Exists_fmap, Exists_exists.
  change (Streak.grp <$> Streak.consecutive_days daily) with (grps 1 sorted).
  split.
  - intros (g & _ & Hg). simpl in Hg. rewrite group_size_occ in Hg.
    apply (group_gives_run 1 g); [done|].
    change (Streak.grp <$> Streak.consecutive_days daily)
      with (grps 1 sorted) in Hg. lia.
  - intros Hrun. destruct (run_gives_group 1 k sorted Hs Hk Hrun) as [g Hg].
    exists g. split.
    + apply elem_of_remove_dups, occ_pos_elem. lia.
    + simpl. rewrite group_size_occ. done.
Qed.

Lemma streak_query_iff (dates : list Z) (k : Z) :
  0 < k →
  first_row_or_false (Streak.query (remove_dups dates) k) = true
  ↔ has_run dates k.
Proof.
  intros Hk. unfold Streak.query, first_row_or_false. simpl.
  rewrite bool_decide_eq_true, streak_exists_iff
    by (apply NoDup_remove_dups || lia).
  apply has_run_ext, elem_of_remove_dups.
Qed.

Lemma foldr_max_ge (k : Z) (xs : list Z) :
  1 ≤ k → k ≤ foldr Z.max 0 xs ↔ Exists (λ x, k ≤ x) xs.
Proof.
  intros Hk. induction xs as [|x xs IH]; simpl.
  - rewrite Exists_nil. lia.
  - rewrite Exists_cons, <-IH. lia.
Qed.

Lemma max_group_size_ge (dates : list Z) (k : Z) :
  0 < k → k ≤ max_group_size dates ↔ has_run dates k.
Proof.
  intros Hk. unfold max_group_size.
  rewrite foldr_max_ge, Exists_fmap by lia.
  etrans; [apply streak_exists_iff; [apply NoDup_remove_dups|lia]|].
  apply has_run_ext, elem_of_remove_dups.
Qed.

End streak_theory.

(** The per-repository date sets, in terms of the rows themselves. *)
Lemma journal_streak_iff (tbl : list JournalEntry.t) (uid : string) (k : Z) :
  0 < k →
  JournalEntryRepository.hasConsecutiveDays tbl uid k = true
  ↔ ∃ d, ∀ i, 0 ≤ i < k →
      ∃ e, e ∈ tbl ∧ JournalEntry.user_id e = uid
           ∧ JournalEntry.is_deleted e = false
           ∧ DATE_UTC (JournalEntry.created_at e) = d + i.
Proof.
  intros Hk. unfold JournalEntryRepository.hasConsecutiveDays,
    JournalEntryRepository.daily_entries.
  rewrite streak_query_iff by done. unfold has_run.
  apply exist_proper; intros d. apply forall_proper; intros i.
  apply forall_proper; intros _.
  rewrite list_elem_of_fmap. unfold JournalEntryRepository.qualifying.
  setoid_rewrite list_elem_of_filter.
  split; [intros (e & ? & [? ?] & ?)|intros (e & ? & ? & ? & ?)];
    exists e; simpl in *; split_and?; done.
Qed.

Lemma gratitude_streak_iff (tbl : list GratitudeEntry.t) (uid : string) (k : Z) :
  0 < k →
  GratitudeEntryRepository.hasConsecutiveDays tbl uid k = true
  ↔ ∃ d, ∀ i, 0 ≤ i < k →
      ∃ e, e ∈ tbl ∧ GratitudeEntry.user_id e = uid
           ∧ GratitudeEntry.is_deleted e = false
           ∧ DATE_UTC (GratitudeEntry.created_at e) = d + i.
Proof.
  intros Hk. unfold GratitudeEntryRepository.hasConsecutiveDays,
    GratitudeEntryRepository.daily_entries.
  rewrite streak_query_iff by done. unfold has_run.
  apply exist_proper; intros d. apply forall_proper; intros i.
  apply forall_proper; intros _.
  rewrite list_elem_of_fmap. unfold GratitudeEntryRepository.qualifying.
  setoid_rewrite list_elem_of_filter.
  split; [intros (e & ? & [? ?] & ?)|intros (e & ? & ? & ? & ?)];
    exists e; simpl in *; split_and?; done.
Qed.

Lemma mood_streak_iff (tbl : list MoodCheckIn.t) (uid : string) (k : Z) :
  0 < k →
  MoodCheckInRepository.hasConsecutiveDays tbl uid k = true
  ↔ ∃ d, ∀ i, 0 ≤ i < k →
      ∃ c, c ∈ tbl ∧ MoodCheckIn.user_id c = uid
           ∧ DATE_UTC (MoodCheckIn.checked_in_at c) = d + i.
Proof.
  intros Hk. unfold MoodCheckInRepository.hasConsecutiveDays,
    MoodCheckInRepository.daily_checkins.
  rewrite streak_query_iff by done. unfold has_run.
  apply exist_proper; intros d. apply forall_proper; intros i.
  apply forall_proper; intros _.
  rewrite list_elem_of_fmap. unfold MoodCheckInRepository.qualifying.
  setoid_rewrite list_elem_of_filter.
  split; [intros (c & ? & ? & ?)|intros (c & ? & ? & ?)];
    exists c; simpl in *; split_and?; done.
Qed.

Lemma flip_feel_streak_iff (sessions : list FlipFeel.t) (uid : string) (k : Z) :
  0 < k →
  FlipFeelRepository.hasConsecutiveDays sessions uid k = true
  ↔ ∃ d, ∀ i, 0 ≤ i < k →
      ∃ f t, f ∈ sessions ∧ FlipFeel.user_id f = uid
             ∧ FlipFeel.finished_at f = Some t ∧ DATE_UTC t = d + i.
Proof.
  intros Hk. unfold FlipFeelRepository.hasConsecutiveDays,
    FlipFeelRepository.daily_sessions.
  rewrite streak_query_iff by done. unfold has_run.
  apply exist_proper; intros d. apply forall_proper; intros i.
  apply forall_proper; intros _.
  rewrite list_elem_of_omap. unfold FlipFeelRepository.completed.
  setoid_rewrite list_elem_of_filter. split.
  - intros (f & ([Hu _] & Hin) & Hd).
    destruct (FlipFeel.finished_at f) as [t|] eqn:Ht; [|done].
    simpl in Hd. exists f, t. split_and?; congruence.
  - intros (f & t & Hin & Hu & Hf & Hd). exists f.
    rewrite Hf. simpl. split_and?; congruence.
Qed.

Lemma gap_dates_runs (D : Z) :
  has_run [D; D + 1; D + 3] 2 ∧ ¬ has_run [D; D + 1; D + 3] 3.
Proof.
  split.
  - exists D. intros i Hi. rewrite !elem_of_cons. lia.
  - intros [d Hd].
    pose proof (Hd 0 ltac:(lia)) as H0.
    pose proof (Hd 1 ltac:(lia)) as H1.
    pose proof (Hd 2 ltac:(lia)) as H2.
    rewrite !elem_of_cons, elem_of_nil in H0, H1, H2. lia.
Qed.

(** C2: for every positive [k] and each of the four repositories,
    [hasConsecutiveDays] answers true exactly when the UTC dates of the
    user's qualifying records (same-day records counting once) contain [k]
    day-adjacent dates with no gap; the largest group of the rank-based
    computation (date minus ascending row number, grouped) is at least [k]
    exactly when such a run exists, so it is the longest run length; for
    the dates D, D+1, D+3 it is 2. *)
Theorem C2_hasConsecutiveDays_longest_run (k : Z) (Hk : 0 < k) :
  (∀ tbl uid,
     JournalEntryRepository.hasConsecutiveDays tbl uid k = true
     ↔ ∃ d, ∀ i, 0 ≤ i < k →
         ∃ e, e ∈ tbl ∧ JournalEntry.user_id e = uid
              ∧ JournalEntry.is_deleted e = false
              ∧ DATE_UTC (JournalEntry.created_at e) = d + i)
  ∧ (∀ tbl uid,
     GratitudeEntryRepository.hasConsecutiveDays tbl uid k = true
     ↔ ∃ d, ∀ i, 0 ≤ i < k →
         ∃ e, e ∈ tbl ∧ GratitudeEntry.user_id e = uid
              ∧ GratitudeEntry.is_deleted e = false
              ∧ DATE_UTC (GratitudeEntry.created_at e) = d + i)
  ∧ (∀ tbl uid,
     MoodCheckInRepository.hasConsecutiveDays tbl uid k = true
     ↔ ∃ d, ∀ i, 0 ≤ i < k →
         ∃ c, c ∈ tbl ∧ MoodCheckIn.user_id c = uid
              ∧ DATE_UTC (MoodCheckIn.checked_in_at c) = d + i)
  ∧ (∀ sessions uid,
     FlipFeelRepository.hasConsecutiveDays sessions uid k = true
     ↔ ∃ d, ∀ i, 0 ≤ i < k →
         ∃ f t, f ∈ sessions ∧ FlipFeel.user_id f = uid
                ∧ FlipFeel.finished_at f = Some t ∧ DATE_UTC t = d + i)
  ∧ (∀ dates, k ≤ max_group_size dates ↔ has_run dates k)
  ∧ (∀ D, max_group_size [D; D + 1; D + 3] = 2).
Proof.
  split_and!.
  - intros. by apply journal_streak_iff.
  - intros. by apply gratitude_streak_iff.
  - intros. by apply mood_streak_iff.
  - intros. by apply flip_feel_streak_iff.
  - intros. by apply max_group_size_ge.
  - intros D. destruct (gap_dates_runs D) as [H2 H3].
    apply max_group_size_ge in H2; [|lia].
    rewrite <-(max_group_size_ge _ 3) in H3 by lia. lia.
Qed.

(** ** Counts and soft deletion *)

(** C6: [hasReachedEntryCount] (journal and gratitude) answers true exactly
    when the user has at least [n] rows that are not soft-deleted; with
    exactly [c] such rows it is true for threshold [c] and false for
    threshold [c + 1]. *)
Theorem C6_hasReachedEntryCount_threshold :
  (∀ (tbl : list JournalEntry.t) (uid : string) (n : Z),
     let c := Z.of_nat (length (filter
                (λ e, JournalEntry.user_id e = uid
                      ∧ JournalEntry.is_deleted e = false) tbl)) in
     (JournalEntryRepository.hasReachedEntryCount tbl uid n = true ↔ c >= n)
     ∧ JournalEntryRepository.hasReachedEntryCount tbl uid c = true
     ∧ JournalEntryRepository.hasReachedEntryCount tbl uid (c + 1) = false)
  ∧ (∀ (tbl : list GratitudeEntry.t) (uid : string) (n : Z),
     let c := Z.of_nat (length (filter
                (λ e, GratitudeEntry.user_id e = uid
                      ∧ GratitudeEntry.is_deleted e = false) tbl)) in
     (GratitudeEntryRepository.hasReachedEntryCount tbl uid n = true ↔ c >= n)
     ∧ GratitudeEntryRepository.hasReachedEntryCount tbl uid c = true
     ∧ GratitudeEntryRepository.hasReachedEntryCount tbl uid (c + 1) = false).
Proof.
  split; intros tbl uid n c.
  - unfold JournalEntryRepository.hasReachedEntryCount,
      JournalEntryRepository.qualifying, first_row_or_false. simpl.
    fold c. rewrite bool_decide_eq_true, !bool_decide_eq_false,
      (bool_decide_eq_true (c ≤ c)). lia.
  - unfold GratitudeEntryRepository.hasReachedEntryCount,
      GratitudeEntryRepository.qualifying, first_row_or_false. simpl.
    fold c. rewrite bool_decide_eq_true, !bool_decide_eq_false,
      (bool_decide_eq_true (c ≤ c)). lia.
Qed.

Lemma merge_sort_perm (d1 d2 : list Z) :
  d1 ≡ₚ d2 → merge_sort Z.le d1 = merge_sort Z.le d2.
Proof.
  intros Hp. apply (Sorted_unique Z.le); try apply (Sorted_merge_sort _).
  by rewrite !merge_sort_Permutation.
Qed.

Lemma remove_dups_perm {A : Type} `{EqDecision A} (l1 l2 : list A) :
  l1 ≡ₚ l2 → remove_dups l1 ≡ₚ remove_dups l2.
Proof.
  intros Hp. apply NoDup_Permutation; try apply NoDup_remove_dups.
  intros x. by rewrite !elem_of_remove_dups, Hp.
Qed.

Lemma streak_query_perm (d1 d2 : list Z) (k : Z) :
  d1 ≡ₚ d2 → Streak.query d1 k = Streak.query d2 k.
Proof.
  intros Hp. unfold Streak.query, Streak.consecutive_days.
  by rewrite (merge_sort_perm d1 d2).
Qed.

Lemma nonempty_perm {A : Type} (l1 l2 : list A) :
  l1 ≡ₚ l2 → bool_decide (l1 ≠ []) = bool_decide (l2 ≠ []).
Proof.
  intros Hp. apply bool_decide_ext. split; intros Hne ->.
  - by apply Permutation_nil_r in Hp.
  - symmetry in Hp. by apply Permutation_nil_r in Hp.
Qed.

Lemma journal_qualifying_perm (tbl1 tbl2 : list JournalEntry.t) (uid : string) :
  filter (λ e, JournalEntry.is_deleted e = false) tbl1
    ≡ₚ filter (λ e, JournalEntry.is_deleted e = false) tbl2 →
  JournalEntryRepository.qualifying tbl1 uid
    ≡ₚ JournalEntryRepository.qualifying tbl2 uid.
Proof.
  intros Hp. unfold JournalEntryRepository.qualifying.
  rewrite <-!(list_filter_filter (λ e, JournalEntry.user_id e = uid)
                (λ e, JournalEntry.is_deleted e = false)).
  by rewrite Hp.
Qed.

Lemma gratitude_qualifying_perm (tbl1 tbl2 : list GratitudeEntry.t)
    (uid : string) :
  filter (λ e, GratitudeEntry.is_deleted e = false) tbl1
    ≡ₚ filter (λ e, GratitudeEntry.is_deleted e = false) tbl2 →
  GratitudeEntryRepository.qualifying tbl1 uid
    ≡ₚ GratitudeEntryRepository.qualifying tbl2 uid.
Proof.
  intros Hp. unfold GratitudeEntryRepository.qualifying.
  rewrite <-!(list_filter_filter (λ e, GratitudeEntry.user_id e = uid)
                (λ e, GratitudeEntry.is_deleted e = false)).
  by rewrite Hp.
Qed.

(** C7: soft-deleted rows never count.  Two journal tables, or two
    gratitude tables, whose rows that are not soft-deleted are the same
    (as bags) give the same answers to [hasFirstEntry],
    [hasReachedEntryCount] and [hasConsecutiveDays], for every user and
    threshold. *)
Theorem C7_soft_deleted_rows_ignored
    (j1 j2 : list JournalEntry.t) (g1 g2 : list GratitudeEntry.t)
    (Hj : filter (λ e, JournalEntry.is_deleted e = false) j1
            ≡ₚ filter (λ e, JournalEntry.is_deleted e = false) j2)
    (Hg : filter (λ e, GratitudeEntry.is_deleted e = false) g1
            ≡ₚ filter (λ e, GratitudeEntry.is_deleted e = false) g2) :
  ∀ (uid : string) (n : Z),
    JournalEntryRepository.hasFirstEntry j1 uid
      = JournalEntryRepository.hasFirstEntry j2 uid
    ∧ JournalEntryRepository.hasReachedEntryCount j1 uid n
      = JournalEntryRepository.hasReachedEntryCount j2 uid n
    ∧ JournalEntryRepository.hasConsecutiveDays j1 uid n
      = JournalEntryRepository.hasConsecutiveDays j2 uid n
    ∧ GratitudeEntryRepository.hasFirstEntry g1 uid
      = GratitudeEntryRepository.hasFirstEntry g2 uid
    ∧ GratitudeEntryRepository.hasReachedEntryCount g1 uid n
      = GratitudeEntryRepository.hasReachedEntryCount g2 uid n
    ∧ GratitudeEntryRepository.hasConsecutiveDays g1 uid n
      = GratitudeEntryRepository.hasConsecutiveDays g2 uid n.
Proof.
  intros uid n.
  pose proof (journal_qualifying_perm j1 j2 uid Hj) as Hqj.
  pose proof (gratitude_qualifying_perm g1 g2 uid Hg) as Hqg.
  split_and!.
  - unfold JournalEntryRepository.hasFirstEntry.
    by rewrite (nonempty_perm _ _ Hqj).
  - unfold JournalEntryRepository.hasReachedEntryCount.
    by rewrite (Permutation_length Hqj).
  - unfold JournalEntryRepository.hasConsecutiveDays,
      JournalEntryRepository.daily_entries.
    f_equal. apply streak_query_perm, remove_dups_perm. by rewrite Hqj.
  - unfold GratitudeEntryRepository.hasFirstEntry.
    by rewrite (nonempty_perm _ _ Hqg).
  - unfold GratitudeEntryRepository.hasReachedEntryCount.
    by rewrite (Permutation_length Hqg).
  - unfold GratitudeEntryRepository.hasConsecutiveDays,
      GratitudeEntryRepository.daily_entries.
    f_equal. apply streak_query_perm, remove_dups_perm. by rewrite Hqg.
Qed.

(** ** Category coverage *)

Section categories.
Variables (sessions : list FlipFeel.t) (responses : list FlipFeelResponse.t)
  (questions : list FlipFeelQuestions.t) (uid : string).

Lemma elem_of_joined f r q :
  (f, r, q) ∈ FlipFeelRepository.joined sessions responses questions
  ↔ f ∈ sessions ∧ r ∈ responses ∧ q ∈ questions
    ∧ FlipFeel.flip_feel_id f = FlipFeelResponse.flip_feel_id r
    ∧ FlipFeelResponse.question_id r = FlipFeelQuestions.question_id q.
Proof.
  unfold FlipFeelRepository.joined. rewrite list_elem_of_bind. split.
  - intros (f' & Hin & Hf). apply list_elem_of_bind in Hin as (r' & Hin & Hr).
    apply list_elem_of_bind in Hin as (q' & Hin & Hq).
    apply list_elem_of_singleton in Hin. injection Hin as -> -> ->.
    apply list_elem_of_filter in Hr as [? ?].
    apply list_elem_of_filter in Hq as [? ?]. done.
  - intros (Hf & Hr & Hq & Hfr & Hrq). exists f. split; [|done].
    apply list_elem_of_bind. exists r. split; [|by apply list_elem_of_filter].
    apply list_elem_of_bind. exists q. split; [|by apply list_elem_of_filter].
    by apply list_elem_of_singleton.
Qed.

Lemma elem_of_answered_categories (cats : list string) (c : string) :
  c ∈ FlipFeelRepository.answered_categories sessions responses questions
        uid cats
  ↔ c ∈ cats
    ∧ answered_in_completed_session sessions responses questions uid c.
Proof.
  unfold FlipFeelRepository.answered_categories,
    answered_in_completed_session.
  rewrite elem_of_remove_dups, list_elem_of_fmap. split.
  - intros ([[f r] q] & -> & Hrow).
    apply list_elem_of_filter in Hrow as [(Hu & Hfin & Hc) Hj].
    apply elem_of_joined in Hj as (? & ? & ? & ? & ?). simpl in *.
    split; [done|]. exists f, r, q. done.
  - intros (Hc & f & r & q & ? & ? & ? & ? & ? & ? & ? & <-).
    exists (f, r, q). split; [done|].
    apply list_elem_of_filter. split; [done|]. by apply elem_of_joined.
Qed.

Lemma hasCompletedAllCategories_count (cats : list string) :
  FlipFeelRepository.hasCompletedAllCategories sessions responses questions
    uid cats = true
  ↔ ∃ cs, NoDup cs
      ∧ (∀ c, c ∈ cs → c ∈ cats
           ∧ answered_in_completed_session sessions responses questions uid c)
      ∧ (length cs ≥ length cats)%nat.
Proof.
  unfold FlipFeelRepository.hasCompletedAllCategories, first_row_or_false.
  simpl. rewrite bool_decide_eq_true. split.
  - intros Hlen. eexists. split; [apply NoDup_remove_dups|]. split.
    + intros c. apply elem_of_answered_categories.
    + fold (FlipFeelRepository.answered_categories sessions responses
              questions uid cats). lia.
  - intros (cs & Hn & Hcs & Hlen).
    enough (length cs ≤ length (FlipFeelRepository.answered_categories
              sessions responses questions uid cats))%nat by lia.
    apply submseteq_length, NoDup_submseteq; [done|].
    intros c Hc. by apply elem_of_answered_categories, Hcs.
Qed.


End categories.




(** ** The evaluation passes *)

(** Each worker is the uniform pass over its part of the catalogue. *)
Lemma worker_is_pass (dom : ActivityDomain) (userId : string) :
  worker dom userId = pass userId (catalogue dom).
Proof. destruct dom; reflexivity. Qed.

Lemma try_catch_rethrow {A : Type} (m : Async World A) (w : World) :
  try_catch m (λ error, await console_error error; throw error) w = m w.
Proof. unfold try_catch. by destruct (m w) as [[a|e] w']. Qed.

Lemma storage_eq {A : Type} (c : StorageCall) (f : Database → A) (w : World) :
  storage c f w
  = if next_fails w then (Rejected (StorageError c), after_call c false w)
    else (Resolved (f (db w)), after_call c true w).
Proof. reflexivity. Qed.

Lemma run_calls_cons (c : StorageCall) (cs : list StorageCall) (w : World) :
  run_calls (c :: cs) w
  = if next_fails w then (Rejected (StorageError c), after_call c false w)
    else run_calls cs (after_call c true w).
Proof.
  simpl. unfold Async_bind. rewrite storage_eq. by destruct (next_fails w).
Qed.

Lemma run_calls_app (cs1 cs2 : list StorageCall) (w : World) :
  run_calls (cs1 ++ cs2) w
  = match run_calls cs1 w with
    | (Resolved _, w') => run_calls cs2 w'
    | (Rejected e, w') => (Rejected e, w')
    end.
Proof.
  revert w. induction cs1 as [|c cs1 IH]; intros w; [done|].
  rewrite <-app_comm_cons, !run_calls_cons.
  destruct (next_fails w); [done|]. apply IH.
Qed.

Lemma effect_query (c : StorageCall) (t : timestamp) (d : Database) :
  is_query c = true → effect c t d = d.
Proof. by destruct c. Qed.

Lemma answer_set_user_badges (tbl : list UserBadge.t) (d : Database)
    (c : StorageCall) :
  answer (set_user_badges tbl d) c = answer d c.
Proof. by destruct c. Qed.

Lemma answer_effect (c' : StorageCall) (t : timestamp) (d : Database)
    (c : StorageCall) :
  answer (effect c' t d) c = answer d c.
Proof. by destruct c'. Qed.

Lemma rule_calls_ext (G : gset string) (d1 d2 : Database) (u : string)
    (r : BadgeRule) :
  (∀ c, answer d1 c = answer d2 c) →
  rule_calls G d1 u r = rule_calls G d2 u r.
Proof. intros H. unfold rule_calls. by rewrite H. Qed.

Lemma bind_rule_calls_ext (G : gset string) (d1 d2 : Database) (u : string)
    (rules : list BadgeRule) :
  (∀ c, answer d1 c = answer d2 c) →
  rules ≫= rule_calls G d1 u = rules ≫= rule_calls G d2 u.
Proof.
  intros H. induction rules as [|r rules IH]; [done|].
  by rewrite !bind_cons, IH, (rule_calls_ext G d1 d2).
Qed.

Lemma evaluate_run_calls (G : gset string) (u : string)
    (rules : list BadgeRule) (w : World) :
  Forall (λ r, is_query (rule_check r u) = true) rules →
  evaluate G u rules w = run_calls (rules ≫= rule_calls G (db w) u) w.
Proof.
  intros Hq. revert w. induction Hq as [|r rules Hr Hq IH]; intros w; [done|].
  rewrite bind_cons, run_calls_app. simpl evaluate. unfold Async_bind at 1.
  assert (rule_calls G (db w) u r
          = if bool_decide (rule_badge r ∈ G) then []
            else rule_check r u
                 :: (if answer (db w) (rule_check r u)
                     then [GrantBadgeByName u (rule_badge r)] else []))
    as -> by done.
  destruct (bool_decide (rule_badge r ∈ G)); cbn [negb].
  { apply IH. }
  unfold Async_bind at 1. rewrite storage_eq, run_calls_cons.
  destruct (next_fails w) eqn:Hf1; [done|].
  destruct (answer (db w) (rule_check r u)) eqn:Hb.
  - unfold BadgeWorkerService.badgesRepo_grantBadgeByName.
    rewrite storage_eq, run_calls_cons.
    destruct (next_fails (after_call (rule_check r u) true w)); [done|].
    simpl run_calls at 1. unfold Async_ret. rewrite IH.
    f_equal. apply bind_rule_calls_ext. intros c.
    unfold after_call; cbn [db]. by rewrite !answer_effect.
  - simpl run_calls at 1. unfold Async_ret. rewrite IH.
    f_equal. apply bind_rule_calls_ext. intros c.
    unfold after_call; cbn [db]. by rewrite !answer_effect.
Qed.

Lemma catalogue_queries (dom : ActivityDomain) (u : string) :
  Forall (λ r, is_query (rule_check r u) = true) (catalogue dom).
Proof. destruct dom; repeat constructor. Qed.

(** A pass makes the storage calls of its plan, one after the other, until
    one fails. *)
Lemma worker_run (dom : ActivityDomain) (u : string) (w : World) :
  worker dom u w = run_calls (plan (db w) u dom) w.
Proof.
  rewrite worker_is_pass. unfold pass. rewrite try_catch_rethrow.
  unfold plan. rewrite run_calls_cons. unfold Async_bind.
  unfold BadgeWorkerService.badgesRepo_getUserBadges. rewrite storage_eq.
  destruct (next_fails w); [done|].
  rewrite evaluate_run_calls by apply catalogue_queries. done.
Qed.

Lemma world_eta (w : World) : mkWorld (db w) (now w) (faults w) (trace w) = w.
Proof. by destruct w. Qed.

Lemma run_calls_ok (cs : list StorageCall) (w : World) :
  Forall (λ b, b = false) (take (length cs) (faults w)) →
  run_calls cs w
  = (Resolved (),
     mkWorld (apply_effects cs (now w) (db w)) (now w)
       (drop (length cs) (faults w)) (trace w ++ cs)).
Proof.
  revert w. induction cs as [|c cs IH]; intros w Hf.
  - simpl. unfold Async_ret. by rewrite app_nil_r, world_eta.
  - rewrite run_calls_cons. destruct w as [d t fs tr]. unfold next_fails.
    simpl in *. destruct fs as [|f fs]; simpl in *.
    + rewrite IH by (simpl; by rewrite take_nil).
      simpl. by rewrite drop_nil, <-app_assoc.
    + apply Forall_cons in Hf as [-> Hf]. simpl.
      rewrite IH by done. simpl. by rewrite <-app_assoc.
Qed.

Lemma run_calls_fail (cs : list StorageCall) (w : World) (n : nat)
    (rest : list bool) (c : StorageCall) :
  faults w = replicate n false ++ true :: rest →
  cs !! n = Some c →
  run_calls cs w
  = (Rejected (StorageError c),
     mkWorld (apply_effects (take n cs) (now w) (db w)) (now w) rest
       (trace w ++ take (S n) cs)).
Proof.
  revert cs w. induction n as [|n IH]; intros cs w Hf Hc.
  - destruct cs as [|c0 cs]; [done|]. injection Hc as ->.
    rewrite run_calls_cons. unfold next_fails, after_call. rewrite Hf. simpl.
    by rewrite take_0.
  - destruct cs as [|c0 cs]; [done|]. simpl in Hc.
    rewrite run_calls_cons. unfold next_fails. rewrite Hf. simpl.
    rewrite (IH cs (after_call c0 true w)); [|by simpl; rewrite Hf|done].
    simpl. by rewrite <-app_assoc.
Qed.

Lemma fault_cases (fs : list bool) (len : nat) :
  Forall (λ b, b = false) (take len fs)
  ∨ ∃ n rest, (n < len)%nat ∧ fs = replicate n false ++ true :: rest.
Proof.
  revert len. induction fs as [|f fs IH]; intros len.
  - left. by rewrite take_nil.
  - destruct len as [|len]; [by left|].
    destruct f.
    + right. exists 0%nat, fs. split; [lia|done].
    + destruct (IH len) as [Hok|(n & rest & Hn & ->)].
      * left. simpl. by constructor.
      * right. exists (S n), rest. split; [lia|done].
Qed.

(** However storage behaves, a list of calls runs a prefix of the calls,
    writes what the successful ones write and nothing else, and resolves
    only after running them all. *)
Lemma run_calls_shape (cs : list StorageCall) (w : World) :
  ∃ evs done,
    trace (run_calls cs w).2 = trace w ++ evs
    ∧ evs `prefix_of` cs ∧ done `prefix_of` evs
    ∧ db (run_calls cs w).2 = apply_effects done (now w) (db w)
    ∧ now (run_calls cs w).2 = now w
    ∧ ((run_calls cs w).1 = Resolved () → evs = cs ∧ done = cs).
Proof.
  destruct (fault_cases (faults w) (length cs)) as [Hok|(n & rest & Hn & Hf)].
  - rewrite run_calls_ok by done. exists cs, cs. by split_and!.
  - destruct (lookup_lt_is_Some_2 cs n Hn) as [c Hc].
    rewrite (run_calls_fail cs w n rest c) by done.
    exists (take (S n) cs), (take n cs). simpl. split_and!; try done.
    + apply prefix_take.
    + replace (take n cs) with (take n (take (S n) cs))
        by (rewrite take_take; f_equal; lia).
      apply prefix_take.
Qed.

(** ** The ledger *)

Lemma granted_count (tbl : list UserBadge.t) (uid name : string) :
  BadgesRepository.granted tbl uid name ↔ (0 < count_grants tbl uid name)%nat.
Proof.
  unfold BadgesRepository.granted, count_grants.
  induction tbl as [|b tbl IH]; simpl.
  - rewrite Exists_nil. lia.
  - rewrite Exists_cons, filter_cons, IH.
    destruct (decide _) as [Hb|Hb]; simpl; [intuition lia|tauto].
Qed.

Lemma count_grants_grant (tbl : list UserBadge.t) (uid name : string)
    (t : timestamp) (uid' name' : string) :
  count_grants (BadgesRepository.grantBadgeByName tbl uid name t) uid' name'
  = if decide (uid = uid' ∧ name = name')
    then Nat.max 1 (count_grants tbl uid' name')
    else count_grants tbl uid' name'.
Proof.
  unfold BadgesRepository.grantBadgeByName.
  destruct (decide (BadgesRepository.granted tbl uid name)) as [Hg|Hg].
  - destruct (decide _) as [[-> ->]|]; [|done].
    apply granted_count in Hg. lia.
  - unfold count_grants at 1. rewrite filter_app, length_app.
    fold (count_grants tbl uid' name').
    rewrite filter_cons, filter_nil. simpl.
    destruct (decide (uid = uid' ∧ name = name')) as [[-> ->]|Hne]; simpl.
    + rewrite granted_count in Hg. lia.
    + lia.
Qed.

Lemma granted_grant (tbl : list UserBadge.t) (uid name : string)
    (t : timestamp) (uid' name' : string) :
  BadgesRepository.granted
    (BadgesRepository.grantBadgeByName tbl uid name t) uid' name'
  ↔ BadgesRepository.granted tbl uid' name' ∨ (uid = uid' ∧ name = name').
Proof.
  rewrite !granted_count, count_grants_grant.
  destruct (decide _); intuition lia.
Qed.

Lemma at_most_one_grant_step (tbl : list UserBadge.t) (uid name : string)
    (t : timestamp) :
  at_most_one_grant tbl →
  at_most_one_grant (BadgesRepository.grantBadgeByName tbl uid name t).
Proof.
  intros H uid' name'. specialize (H uid' name').
  rewrite count_grants_grant. destruct (decide _); lia.
Qed.

Lemma count_grants_grant_all (tbl : list UserBadge.t)
    (requests : list (string * string * timestamp)) (uid name : string) :
  count_grants (grant_all tbl requests) uid name
  = if decide ((uid, name) ∈ requests.*1)
    then Nat.max 1 (count_grants tbl uid name)
    else count_grants tbl uid name.
Proof.
  revert tbl. induction requests as [|[[u b] t] requests IH]; intros tbl.
  - unfold grant_all. cbn [foldl]. rewrite fmap_nil.
    rewrite decide_False; [done|]. apply not_elem_of_nil.
  - unfold grant_all in *. cbn [foldl]. rewrite fmap_cons. cbn [fst snd].
    rewrite IH, count_grants_grant.
    assert ((uid, name) ∈ (u, b) :: requests.*1
            ↔ (u = uid ∧ b = name) ∨ (uid, name) ∈ requests.*1) as Hcons.
    { rewrite elem_of_cons. split; (intros [H|H]; [left|by right]).
      - by injection H.
      - by destruct H as [-> ->]. }
    repeat case_decide; try lia; exfalso; tauto.
Qed.

(** C3: at most one grant record per (user, badge name).  Whatever grant
    requests arrive, in whatever order and however often repeated (each an
    atomic write), a ledger with no duplicate keeps none, and it holds
    exactly one record for every pair that was granted before or is
    requested; granting a badge the user already holds succeeds and changes
    nothing, whatever the time of the second request. *)
Theorem C3_grant_idempotent (tbl : list UserBadge.t)
    (Hinv : at_most_one_grant tbl) :
  (∀ requests, at_most_one_grant (grant_all tbl requests))
  ∧ (∀ requests uid name,
       BadgesRepository.granted tbl uid name ∨ (uid, name) ∈ requests.*1 →
       count_grants (grant_all tbl requests) uid name = 1%nat)
  ∧ (∀ uid name t,
       BadgesRepository.granted tbl uid name →
       BadgesRepository.grantBadgeByName tbl uid name t = tbl)
  ∧ (∀ uid name t1 t2,
       BadgesRepository.grantBadgeByName
         (BadgesRepository.grantBadgeByName tbl uid name t1) uid name t2
       = BadgesRepository.grantBadgeByName tbl uid name t1)
  ∧ (∀ (w : World) uid name,
       user_badges (db w) = tbl → next_fails w = false →
       BadgesRepository.granted tbl uid name →
       let r := BadgeWorkerService.badgesRepo_grantBadgeByName uid name w in
       r.1 = Resolved () ∧ db r.2 = db w).
Proof.
  split_and!.
  - intros requests uid name. rewrite count_grants_grant_all.
    specialize (Hinv uid name). destruct (decide _); lia.
  - intros requests uid name Hg. rewrite count_grants_grant_all.
    specialize (Hinv uid name). rewrite granted_count in Hg.
    destruct (decide _); [lia|]. destruct Hg; [lia|done].
  - intros uid name t Hg. unfold BadgesRepository.grantBadgeByName.
    by rewrite decide_True.
  - intros uid name t1 t2.
    unfold BadgesRepository.grantBadgeByName at 1.
    rewrite decide_True; [done|]. apply granted_grant. by right.
  - intros w uid name Htbl Hf Hg. simpl.
    unfold BadgeWorkerService.badgesRepo_grantBadgeByName.
    rewrite storage_eq, Hf. simpl. split; [done|].
    unfold BadgesRepository.grantBadgeByName.
    rewrite decide_True by (by rewrite Htbl). by destruct (db w).
Qed.

(** ** Which grants a pass makes *)

Lemma grant_calls_query (c : StorageCall) (cs : list StorageCall) :
  is_query c = true → grant_calls (c :: cs) = grant_calls cs.
Proof. by destruct c. Qed.

Lemma grant_calls_rules (G : gset string) (d : Database) (u : string)
    (rules : list BadgeRule) :
  Forall (λ r, is_query (rule_check r u) = true) rules →
  grant_calls (rules ≫= rule_calls G d u)
  = (λ r, (u, rule_badge r))
      <$> filter (λ r, (rule_badge r ∉ G)
                       ∧ answer d (rule_check r u) = true) rules.
Proof.
  induction 1 as [|r rules Hr Hq IH]; [done|].
  rewrite bind_cons. unfold grant_calls in *. rewrite omap_app, IH.
  rewrite filter_cons. unfold rule_calls.
  destruct (decide (rule_badge r ∈ G)) as [HG|HG].
  - rewrite bool_decide_eq_true_2 by done.
    rewrite decide_False by tauto. done.
  - rewrite bool_decide_eq_false_2 by done.
    fold (grant_calls (rule_check r u
            :: (if answer d (rule_check r u)
                then [GrantBadgeByName u (rule_badge r)] else []))).
    rewrite grant_calls_query by done.
    destruct (answer d (rule_check r u)).
    + by rewrite decide_True.
    + rewrite decide_False; [done|]. intros [_ ?]. done.
Qed.

Lemma grant_calls_plan (d : Database) (u : string) (dom : ActivityDomain) :
  grant_calls (plan d u dom)
  = (λ r, (u, rule_badge r)) <$> newly_qualifying d u dom.
Proof.
  unfold newly_qualifying.
  etrans; [|apply grant_calls_rules, catalogue_queries]. done.
Qed.

Lemma grant_calls_prefix (evs cs : list StorageCall) :
  evs `prefix_of` cs → grant_calls evs `prefix_of` grant_calls cs.
Proof.
  intros [k ->]. unfold grant_calls. rewrite omap_app. by eexists.
Qed.

Lemma no_faults_take (fs : list bool) (n : nat) :
  Forall (λ b, b = false) fs → Forall (λ b, b = false) (take n fs).
Proof. apply Forall_take. Qed.

(** Every grant a pass invokes, failed or not, is for a newly qualifying
    rule of its domain. *)
Lemma pass_grants_sound (dom : ActivityDomain) (userId : string)
    (d : Database) (evs : list StorageCall) (u b : string) :
  evs `prefix_of` plan d userId dom →
  (u, b) ∈ grant_calls evs →
  u = userId ∧ (b ∉ grant_set d userId)
  ∧ ∃ r, r ∈ catalogue dom ∧ rule_badge r = b
         ∧ answer d (rule_check r userId) = true.
Proof.
  intros Hpre Hin. apply grant_calls_prefix in Hpre as [k Hk].
  rewrite grant_calls_plan in Hk.
  assert ((u, b) ∈ (λ r, (userId, rule_badge r))
                     <$> newly_qualifying d userId dom) as Hq.
  { rewrite Hk. apply elem_of_app. by left. }
  apply list_elem_of_fmap in Hq as (r & Heq & Hr). injection Heq as -> ->.
  unfold newly_qualifying in Hr.
  apply list_elem_of_filter in Hr as [[HG Ha] Hr].
  split_and!; [done|done|]. by exists r.
Qed.

(** C1: in every evaluation pass, [grantBadgeByName] is invoked only for
    rules of the triggering domain whose badge is not in the grant set
    loaded at the start and whose predicate holds on the history, in
    catalogue order; when the pass resolves it has been invoked for exactly
    those rules, each once, and the pass does resolve when no storage call
    fails; it is never invoked for a badge already in the loaded set. *)
Theorem C1_grants_exactly_newly_qualifying :
  ∀ (dom : ActivityDomain) (userId : string) (w : World),
  ∃ evs,
    trace (worker dom userId w).2 = trace w ++ evs
    ∧ grant_calls evs
        `prefix_of` ((λ r, (userId, rule_badge r))
                       <$> newly_qualifying (db w) userId dom)
    ∧ ((worker dom userId w).1 = Resolved () →
       grant_calls evs
       = (λ r, (userId, rule_badge r)) <$> newly_qualifying (db w) userId dom)
    ∧ (Forall (λ b, b = false) (faults w) →
       (worker dom userId w).1 = Resolved ())
    ∧ (∀ u b, (u, b) ∈ grant_calls evs →
         u = userId ∧ (b ∉ grant_set (db w) userId)
         ∧ ∃ r, r ∈ catalogue dom ∧ rule_badge r = b
                ∧ answer (db w) (rule_check r userId) = true).
Proof.
  intros dom u w. rewrite worker_run.
  destruct (run_calls_shape (plan (db w) u dom) w)
    as (evs & done & Htr & Hpre & _ & _ & _ & Hres).
  assert (grant_calls evs
            `prefix_of` ((λ r, (u, rule_badge r))
                           <$> newly_qualifying (db w) u dom)) as Hg.
  { rewrite <-grant_calls_plan. by apply grant_calls_prefix. }
  exists evs. split_and!; [done|done| | |].
  - intros Hok. destruct (Hres Hok) as [-> _]. apply grant_calls_plan.
  - intros Hnf. rewrite run_calls_ok; [done|]. by apply no_faults_take.
  - intros u' b Hin. by apply (pass_grants_sound dom u (db w) evs).
Qed.

(** ** Redelivery *)

Lemma elem_of_grant_set (d : Database) (u b : string) :
  b ∈ grant_set d u ↔ BadgesRepository.granted (user_badges d) u b.
Proof.
  unfold grant_set, BadgesRepository.granted, BadgesRepository.getUserBadges.
  rewrite elem_of_list_to_set, list_elem_of_fmap, Exists_exists.
  setoid_rewrite list_elem_of_filter.
  split; intros (x & ? & ?); exists x; intuition congruence.
Qed.

Lemma apply_effects_cons (c : StorageCall) (cs : list StorageCall)
    (t : timestamp) (d : Database) :
  apply_effects (c :: cs) t d = apply_effects cs t (effect c t d).
Proof. reflexivity. Qed.

Lemma granted_effect (c : StorageCall) (t : timestamp) (d : Database)
    (u b : string) :
  BadgesRepository.granted (user_badges (effect c t d)) u b
  ↔ BadgesRepository.granted (user_badges d) u b ∨ c = GrantBadgeByName u b.
Proof.
  destruct c; simpl; try (split; [by left|by intros [?|?]]).
  rewrite granted_grant. split; (intros [?|H]; [by left|right]).
  - by destruct H as [-> ->].
  - by injection H.
Qed.

Lemma granted_apply_effects (cs : list StorageCall) (t : timestamp)
    (d : Database) (u b : string) :
  BadgesRepository.granted (user_badges (apply_effects cs t d)) u b
  ↔ BadgesRepository.granted (user_badges d) u b
    ∨ GrantBadgeByName u b ∈ cs.
Proof.
  revert d. induction cs as [|c cs IH]; intros d.
  - simpl. rewrite elem_of_nil. tauto.
  - rewrite apply_effects_cons, IH, granted_effect, elem_of_cons.
    intuition congruence.
Qed.

Lemma answer_apply_effects (cs : list StorageCall) (t : timestamp)
    (d : Database) (c : StorageCall) :
  answer (apply_effects cs t d) c = answer d c.
Proof.
  revert d. induction cs as [|c' cs IH]; intros d; [done|].
  by rewrite apply_effects_cons, IH, answer_effect.
Qed.

Lemma apply_effects_no_grants (cs : list StorageCall) (t : timestamp)
    (d : Database) :
  grant_calls cs = [] → apply_effects cs t d = d.
Proof.
  revert d. induction cs as [|c cs IH]; intros d Hg; [done|].
  rewrite apply_effects_cons. destruct c; try (by apply IH). done.
Qed.

Lemma elem_of_grant_calls (cs : list StorageCall) (u b : string) :
  (u, b) ∈ grant_calls cs ↔ GrantBadgeByName u b ∈ cs.
Proof.
  unfold grant_calls. rewrite list_elem_of_omap. split.
  - intros (c & Hc & Heq). destruct c; try done. by injection Heq as -> ->.
  - intros Hc. by exists (GrantBadgeByName u b).
Qed.

Lemma filter_none {A : Type} (P : A → Prop) `{∀ x, Decision (P x)}
    (l : list A) :
  (∀ x, x ∈ l → ¬ P x) → filter P l = [].
Proof.
  induction l as [|x l IH]; intros Hl; [done|].
  rewrite filter_cons_False by (apply Hl; left).
  apply IH. intros y Hy. apply Hl. by right.
Qed.

(** After a pass that resolved, no rule of the domain newly qualifies. *)
Lemma newly_qualifying_after (dom : ActivityDomain) (u : string)
    (d : Database) (t : timestamp) :
  newly_qualifying (apply_effects (plan d u dom) t d) u dom = [].
Proof.
  unfold newly_qualifying at 1.
  apply filter_none. intros r Hr [HG Ha].
  rewrite answer_apply_effects in Ha. apply HG.
  apply elem_of_grant_set, granted_apply_effects.
  destruct (decide (rule_badge r ∈ grant_set d u)) as [Hin|Hout].
  - left. by apply elem_of_grant_set.
  - right. apply elem_of_grant_calls. rewrite grant_calls_plan.
    apply list_elem_of_fmap. exists r. split; [done|].
    unfold newly_qualifying. by apply list_elem_of_filter.
Qed.

Lemma catalogue_badges_NoDup (dom : ActivityDomain) :
  NoDup (rule_badge <$> catalogue dom).
Proof. destruct dom; by apply (bool_decide_unpack _). Qed.

Lemma newly_qualifying_NoDup (d : Database) (u : string)
    (dom : ActivityDomain) :
  NoDup ((λ r, (u, rule_badge r)) <$> newly_qualifying d u dom).
Proof.
  apply (NoDup_fmap_1 snd). rewrite <-list_fmap_compose.
  unfold newly_qualifying.
  pose proof (catalogue_badges_NoDup dom) as Hn.
  induction (catalogue dom) as [|r rules IH]; [constructor|].
  rewrite fmap_cons in Hn. apply NoDup_cons in Hn as [Hr Hn].
  rewrite filter_cons. destruct (decide _); [|by apply IH].
  rewrite fmap_cons. apply NoDup_cons. split; [|by apply IH].
  intros Hin. apply Hr. apply list_elem_of_fmap in Hin as (r' & Heq & Hr').
  apply list_elem_of_filter in Hr' as [_ Hr'].
  apply list_elem_of_fmap. by exists r'.
Qed.

(** C4: run a pass and then run the same pass again for the same user on
    the history as it is (at any later time, whatever storage does during
    the second pass).  The second pass never invokes [grantBadgeByName] for
    a badge the user holds after the first pass, which includes every badge
    the first pass granted.  When the first pass ran to completion, every
    badge it granted is in the grant set the second pass loads, the second
    pass invokes [grantBadgeByName] for no badge and leaves the ledger as it
    was, and over the two passes it was invoked exactly once for each newly
    qualifying badge. *)
Theorem C4_second_pass_grants_nothing :
  ∀ (dom : ActivityDomain) (userId : string) (w : World)
    (t2 : timestamp) (faults2 : list bool),
  let w1 := (worker dom userId w).2 in
  let w2 := (worker dom userId
               (mkWorld (db w1) t2 faults2 (trace w1))).2 in
  ∃ evs1 evs2,
    trace w1 = trace w ++ evs1
    ∧ trace w2 = trace w1 ++ evs2
    ∧ (∀ b, BadgesRepository.granted (user_badges (db w1)) userId b →
            (userId, b) ∉ grant_calls evs2)
    ∧ ((worker dom userId w).1 = Resolved () →
       (∀ u b, (u, b) ∈ grant_calls evs1 → b ∈ grant_set (db w1) userId)
       ∧ grant_calls evs2 = []
       ∧ user_badges (db w2) = user_badges (db w1)
       ∧ grant_calls (evs1 ++ evs2)
         = (λ r, (userId, rule_badge r))
             <$> newly_qualifying (db w) userId dom
       ∧ NoDup (grant_calls (evs1 ++ evs2))).
Proof.
  intros dom userId w t2 faults2 w1 w2. subst w1 w2. rewrite !worker_run.
  destruct (run_calls_shape (plan (db w) userId dom) w)
    as (evs1 & done1 & Htr1 & _ & _ & Hdb1 & _ & Hres1).
  set (w1 := (run_calls (plan (db w) userId dom) w).2) in *.
  destruct (run_calls_shape (plan (db w1) userId dom)
              (mkWorld (db w1) t2 faults2 (trace w1)))
    as (evs2 & done2 & Htr2 & Hpre2 & Hdone2 & Hdb2 & _ & _).
  cbn [db now trace] in Htr2, Hdb2.
  exists evs1, evs2. cbn [db]. split_and!; [done|done| |].
  - intros b Hg Hin.
    apply (pass_grants_sound dom userId (db w1)) in Hin as (_ & Hout & _);
      [|done].
    by apply Hout, elem_of_grant_set.
  - intros Hfirst. destruct (Hres1 Hfirst) as [-> ->].
    assert (grant_calls (plan (db w1) userId dom) = []) as Hnone.
    { rewrite grant_calls_plan, Hdb1, newly_qualifying_after. done. }
    assert (grant_calls evs2 = []) as Hnone2.
    { apply grant_calls_prefix in Hpre2. rewrite Hnone in Hpre2.
      by apply prefix_nil_inv. }
    assert (grant_calls done2 = []) as Hnone3.
    { apply grant_calls_prefix in Hdone2. rewrite Hnone2 in Hdone2.
      by apply prefix_nil_inv. }
    split_and!; [|done| | |].
    + intros u b Hin. apply elem_of_grant_calls in Hin as Hin'.
      rewrite grant_calls_plan in Hin.
      apply list_elem_of_fmap in Hin as (r & Heq & _). injection Heq as -> _.
      apply elem_of_grant_set. rewrite Hdb1. apply granted_apply_effects.
      by right.
    + rewrite Hdb2. by rewrite apply_effects_no_grants.
    + unfold grant_calls in *. rewrite omap_app, Hnone2, app_nil_r.
      apply grant_calls_plan.
    + unfold grant_calls in *. rewrite omap_app, Hnone2, app_nil_r.
      fold (grant_calls (plan (db w) userId dom)).
      rewrite grant_calls_plan. apply newly_qualifying_NoDup.
Qed.

(** ** Failure *)

(** C5: let the storage call number [n] of a pass fail (a history query or
    a ledger call; [plan] lists the calls the pass makes when none fails,
    which is the trace of the run without failures).  Then the pass rejects
    with the error of that call, makes no storage call after it, and leaves
    the database as the calls before the failure wrote it: the user holds
    exactly the badges held before the pass and those granted before the
    failure, and nothing of what came later in the plan is granted. *)
Theorem C5_failure_aborts_and_propagates
    (dom : ActivityDomain) (userId : string) (w : World)
    (n : nat) (rest : list bool) (c : StorageCall)
    (Hfaults : faults w = replicate n false ++ true :: rest)
    (Hcall : plan (db w) userId dom !! n = Some c) :
  let calls := plan (db w) userId dom in
  let w' := (worker dom userId w).2 in
  (worker dom userId w).1 = Rejected (StorageError c)
  ∧ trace w' = trace w ++ take (S n) calls
  ∧ db w' = apply_effects (take n calls) (now w) (db w)
  ∧ (∀ b, BadgesRepository.granted (user_badges (db w')) userId b
          ↔ BadgesRepository.granted (user_badges (db w)) userId b
            ∨ GrantBadgeByName userId b ∈ take n calls)
  ∧ (∀ b, GrantBadgeByName userId b ∈ drop n calls →
          ¬ BadgesRepository.granted (user_badges (db w)) userId b →
          ¬ BadgesRepository.granted (user_badges (db w')) userId b)
  ∧ worker dom userId (mkWorld (db w) (now w) [] (trace w))
    = (Resolved (),
       mkWorld (apply_effects calls (now w) (db w)) (now w) []
         (trace w ++ calls)).
Proof.
  intros calls w'. subst w'. rewrite !worker_run. cbn [db].
  fold calls. rewrite (run_calls_fail calls w n rest c) by done.
  cbn [fst snd db trace]. split_and!; try done.
  - intros b. apply granted_apply_effects.
  - intros b Hlater Hnot Hg. apply granted_apply_effects in Hg as [?|Hin];
      [done|].
    assert (NoDup (grant_calls calls)) as Hnd.
    { unfold calls. rewrite grant_calls_plan. apply newly_qualifying_NoDup. }
    rewrite <-(take_drop n calls) in Hnd. unfold grant_calls in Hnd.
    rewrite omap_app in Hnd. apply NoDup_app in Hnd as (_ & Hdisj & _).
    apply (Hdisj (userId, b)); by apply elem_of_grant_calls.
  - rewrite run_calls_ok by (cbn [faults]; by rewrite take_nil).
    cbn [now db faults trace]. by rewrite drop_nil.
Qed.

(** ** The controller *)

Section controller_theory.
Context {S : Type}.
Variable badgeWorkerService : ActivityDomain → option JSON → Async S unit.
Variable decode : JSON → Outcome JSON.

#[local] Abbreviation handle :=
  (handleBadgeAwarding badgeWorkerService decode).

(** The envelope checks pass exactly on the bodies [message_data] reads. *)
Lemma envelope_inv (body : option JSON) (data : JSON) :
  message_data body = Some data →
  ∃ fields message,
    body = Some (JObject fields)
    ∧ assoc "message" fields = Some (JObject message)
    ∧ assoc "data" message = Some data
    ∧ truthy (Some data) = true.
Proof.
  unfold message_data. intros H.
  destruct body as [[| | | | |fields]|]; try done.
  destruct (assoc "message" fields) as [[| | | | |message]|] eqn:Hm; try done.
  destruct (assoc "data" message) as [d|] eqn:Hd; try done.
  destruct (truthy (Some d)) eqn:Ht; try done.
  injection H as ->. by exists fields, message.
Qed.






(** A body that fails the envelope checks is answered with a 400 and
    reaches neither the decoder nor a worker. *)
Lemma handle_bad_envelope (body : option JSON) (h : Handling) :
  message_data body = None →
  ∃ resp, handle body h = (Resolved resp, h) ∧ status resp = 400.
Proof.
  unfold message_data, handleBadgeAwarding, try_catch, Async_bind, lift,
    Async_ret.
  intros Hnone. destruct body as [[|b|n|s|items|fields]|];
    cbn [truthy negb get]; try (by eexists).
  - destruct b; by eexists.
  - destruct (negb (bool_decide (n = 0))); by eexists.
  - destruct (negb (bool_decide (s = ""%string))); by eexists.
  - destruct (assoc "message" fields) as [[|b|n|s|items|message]|] eqn:Hm;
      cbn [truthy negb get]; try (by eexists).
    + destruct b; by eexists.
    + destruct (negb (bool_decide (n = 0))); by eexists.
    + destruct (negb (bool_decide (s = ""%string))); by eexists.
    + destruct (assoc "data" message) as [d|] eqn:Hd;
        [|cbn [truthy negb]; by eexists].
      destruct (truthy (Some d)) eqn:Ht; [done|]. cbn [negb]. by eexists.
Qed.

(** A known event type with a user id routes to the worker of its domain,
    once; the answer is 204 if the worker resolves and 500 with its error
    if it rejects. *)
Lemma handle_known_event (body : option JSON) (data : JSON)
    (pfields : list (string * JSON)) (dom : ActivityDomain) (u : string)
    (h : Handling) :
  message_data body = Some data →
  decode data = Resolved (JObject pfields) →
  assoc "eventType" pfields = Some (JString (event_name dom)) →
  assoc "userId" pfields = Some (JString u) → u ≠ ""%string →
  let r := badgeWorkerService dom (Some (JString u)) (service_state h) in
  handle body h
  = (Resolved (match r.1 with
               | Resolved _ => NoContent
               | Rejected e => InternalServerError e
               end),
     mkHandling r.2 (worker_calls h ++ [(dom, Some (JString u))])).
Proof.
  intros Hdata Hdec He Hu Hne.
  apply envelope_inv in Hdata as (fields & message & -> & Hm & Hd & Ht).
  unfold handleBadgeAwarding, try_catch, Async_bind, lift, Async_ret.
  cbn [truthy negb get]. rewrite Hm. cbn [truthy negb get].
  rewrite Hd, Ht. cbn [negb from_option]. rewrite Hdec. cbn [get].
  rewrite He, Hu. cbn [truthy]. rewrite (bool_decide_eq_false_2 _ Hne).
  assert (bool_decide (event_name dom = ""%string) = false) as ->
    by (by destruct dom).
  cbn [negb]. unfold call_worker.
  destruct dom; cbn [event_name strict_eq];
    repeat (rewrite bool_decide_eq_false_2 by done);
    rewrite ?bool_decide_eq_true_2 by done;
    cbn [template existsb from_option to_string_throws orb fst snd];
    by destruct (badgeWorkerService _ (Some (JString u)) (service_state h))
         as [[[]|e] s'].
Qed.

End controller_theory.



(** C10: a payload whose userId is the empty string is answered with the
    400 response of the missing-field branch, whatever its eventType, and
    no badge worker is called; a payload that is not null and has no userId
    gets that same response. *)
Theorem C10_empty_userId_rejected {S : Type}
    (badgeWorkerService : ActivityDomain → option JSON → Async S unit)
    (decode : JSON → Outcome JSON) (body : option JSON)
    (data payload : JSON) (h : Handling)
    (Hdata : message_data body = Some data)
    (Hdecode : decode data = Resolved payload)
    (Hempty : payload_field payload "userId" = Some (JString "")) :
  handleBadgeAwarding badgeWorkerService decode body h
  = (Resolved BadRequestMissingEventTypeOrUserId, h)
  ∧ status BadRequestMissingEventTypeOrUserId = 400
  ∧ (∀ body' data' payload',
       message_data body' = Some data' →
       decode data' = Resolved payload' →
       payload' ≠ JNull →
       payload_field payload' "userId" = None →
       handleBadgeAwarding badgeWorkerService decode body' h
       = (Resolved BadRequestMissingEventTypeOrUserId, h)).
Proof.
  split_and!; [|done|].
  - apply envelope_inv in Hdata as (fields & message & -> & Hm & Hd & Ht).
    unfold handleBadgeAwarding, try_catch, Async_bind, lift, Async_ret.
    cbn [truthy negb get]. rewrite Hm. cbn [truthy negb get].
    rewrite Hd, Ht. cbn [negb from_option]. rewrite Hdecode.
    destruct payload as [| | | | |pfields]; try done.
    cbn [payload_field] in Hempty. cbn [get]. rewrite Hempty.
    by destruct (truthy (assoc "eventType" pfields)).
  - intros body' data' payload' Hdata' Hdec' Hnn Hnone.
    apply envelope_inv in Hdata' as (fields & message & -> & Hm & Hd & Ht).
    unfold handleBadgeAwarding, try_catch, Async_bind, lift, Async_ret.
    cbn [truthy negb get]. rewrite Hm. cbn [truthy negb get].
    rewrite Hd, Ht. cbn [negb from_option]. rewrite Hdec'.
    destruct payload' as [| | | | |pfields]; try done.
    cbn [payload_field] in Hnone. cbn [get]. rewrite Hnone.
    by destruct (truthy (assoc "eventType" pfields)).
Qed.

(** ** The properties on the sample data *)

Example streak_of_three_days :
  JournalEntryRepository.hasConsecutiveDays sample_journal "u1" 3 = true
  ∧ JournalEntryRepository.hasConsecutiveDays sample_journal "u1" 4 = false
  ∧ JournalEntryRepository.hasReachedEntryCount sample_journal "u1" 4 = true
  ∧ JournalEntryRepository.hasReachedEntryCount sample_journal "u1" 5 = false.
Proof. by vm_compute. Qed.

Example six_of_seven_categories :
  FlipFeelRepository.hasCompletedAllCategories sample_sessions
    sample_responses sample_questions "u1" validCategories = false
  ∧ FlipFeelRepository.hasCompletedAllCategories sample_sessions_completed
      sample_responses sample_questions "u1" validCategories = true.
Proof. by vm_compute. Qed.

Example journal_pass_trace :
  trace (worker Journal "u1" (sample_world [])).2
  = [ GetUserBadges "u1";
      JournalHasFirstEntry "u1"; GrantBadgeByName "u1" "New Beginnings";
      JournalHasConsecutiveDays "u1" 3;
      GrantBadgeByName "u1" "Mindful Momentum";
      JournalHasConsecutiveDays "u1" 7;
      JournalHasReachedEntryCount "u1" 10;
      JournalHasReachedEntryCount "u1" 20;
      JournalHasReachedEntryCount "u1" 30 ]%string.
Proof. by vm_compute. Qed.

Example journal_event_routed :
  (handleBadgeAwarding service_on_world
     (λ _, Resolved (JObject [("eventType", JString "JOURNAL_ENTRY_CREATED");
                              ("userId", JString "u1")]%string))
     (sample_body "journal") (mkHandling (sample_world []) [])).1
  = Resolved NoContent.
Proof. by vm_compute. Qed.

Lemma C1_witness :
  ∃ evs,
    trace (worker Journal "u1" (sample_world [])).2 = [] ++ evs
    ∧ grant_calls evs
      = [("u1", "New Beginnings"); ("u1", "Mindful Momentum")]%string.
Proof.
  destruct (C1_grants_exactly_newly_qualifying Journal "u1" (sample_world []))
    as (evs & Htr & _ & _ & Hok & _).
  exists evs. split; [done|].
  simpl in Htr. rewrite <-Htr. by vm_compute.
Defined.

Lemma C6_witness :
  JournalEntryRepository.hasReachedEntryCount sample_journal "u1" 4 = true
  ∧ JournalEntryRepository.hasReachedEntryCount sample_journal "u1" (4 + 1)
    = false.
Proof.
  exact (proj2 (proj1 C6_hasReachedEntryCount_threshold sample_journal "u1" 0)).
Defined.



Lemma C2_witness :
  0 < 3
  ∧ JournalEntryRepository.hasConsecutiveDays sample_journal "u1" 3 = true
  ∧ max_group_size [20000; 20000 + 1; 20000 + 3] = 2.
Proof.
  pose proof (C2_hasConsecutiveDays_longest_run 3 eq_refl)
    as (Hj & _ & _ & _ & _ & Hgap).
  split_and!; [done| |apply Hgap].
  apply Hj. exists 20000. intros i Hi.
  assert (i = 0 ∨ i = 1 ∨ i = 2) as [-> | [-> | ->]] by lia.
  - eexists. split; [apply (list_elem_of_lookup_2 _ 0%nat); reflexivity|].
    by vm_compute.
  - eexists. split; [apply (list_elem_of_lookup_2 _ 1%nat); reflexivity|].
    by vm_compute.
  - eexists. split; [apply (list_elem_of_lookup_2 _ 2%nat); reflexivity|].
    by vm_compute.
Defined.

Lemma C3_witness :
  at_most_one_grant (user_badges sample_db)
  ∧ count_grants
      (grant_all (user_badges sample_db)
         [("u1", "New Beginnings", 5); ("u2", "New Beginnings", 6);
          ("u1", "New Beginnings", 7)]%string)
      "u1" "New Beginnings" = 1%nat.
Proof.
  assert (at_most_one_grant (user_badges sample_db)) as Hinv.
  { intros uid name. unfold count_grants.
    etrans; [apply length_filter|]. simpl. lia. }
  split; [done|].
  apply (C3_grant_idempotent _ Hinv). right.
  apply (bool_decide_unpack _). by vm_compute.
Defined.

Lemma C4_witness :
  (worker Journal "u1" (sample_world [])).1 = Resolved ()
  ∧ ∃ evs1 evs2,
      grant_calls evs1
      = [("u1", "New Beginnings"); ("u1", "Mindful Momentum")]%string
      ∧ grant_calls evs2 = []
      ∧ grant_calls (evs1 ++ evs2)
        = (λ r, ("u1"%string, rule_badge r))
            <$> newly_qualifying sample_db "u1" Journal.
Proof.
  assert ((worker Journal "u1" (sample_world [])).1 = Resolved ()) as Hfirst
    by (by vm_compute).
  split; [done|].
  destruct (C4_second_pass_grants_nothing Journal "u1" (sample_world [])
              (day 20003 0) [false; true])
    as (evs1 & evs2 & _ & _ & _ & Hres).
  destruct (Hres Hfirst) as (_ & H2 & _ & Htot & _).
  exists evs1, evs2. split_and!; [|done|done].
  unfold grant_calls in Htot |- *. rewrite omap_app in Htot.
  fold (grant_calls evs2) in Htot. rewrite H2, app_nil_r in Htot.
  rewrite Htot. by vm_compute.
Defined.

Lemma C5_witness :
  faults (sample_world [false; false; true; false])
    = replicate 2 false ++ true :: [false]
  ∧ plan sample_db "u1" Journal !! 2%nat
    = Some (GrantBadgeByName "u1" "New Beginnings")
  ∧ (worker Journal "u1" (sample_world [false; false; true; false])).1
    = Rejected (StorageError (GrantBadgeByName "u1" "New Beginnings")).
Proof.
  assert (plan sample_db "u1" Journal !! 2%nat
          = Some (GrantBadgeByName "u1" "New Beginnings")) as Hcall
    by (by vm_compute).
  split_and!; [done|done|].
  apply (C5_failure_aborts_and_propagates Journal "u1"
           (sample_world [false; false; true; false]) 2 [false]
           (GrantBadgeByName "u1" "New Beginnings") eq_refl Hcall).
Defined.

Lemma C7_witness :
  filter (λ e, JournalEntry.is_deleted e = false) sample_journal
    ≡ₚ filter (λ e, JournalEntry.is_deleted e = false) sample_journal_undeleted
  ∧ filter (λ e, GratitudeEntry.is_deleted e = false) sample_gratitude
    ≡ₚ filter (λ e, GratitudeEntry.is_deleted e = false)
         sample_gratitude_undeleted
  ∧ JournalEntryRepository.hasConsecutiveDays sample_journal "u1" 4
    = JournalEntryRepository.hasConsecutiveDays sample_journal_undeleted "u1" 4.
Proof.
  assert (filter (λ e, JournalEntry.is_deleted e = false) sample_journal
          ≡ₚ filter (λ e, JournalEntry.is_deleted e = false)
               sample_journal_undeleted) as Hj.
  { vm_compute. symmetry. apply (Permutation_cons_append [_; _; _; _]). }
  assert (filter (λ e, GratitudeEntry.is_deleted e = false) sample_gratitude
          ≡ₚ filter (λ e, GratitudeEntry.is_deleted e = false)
               sample_gratitude_undeleted) as Hg by (by vm_compute).
  split_and!; [done|done|].
  apply (C7_soft_deleted_rows_ignored _ _ _ _ Hj Hg "u1" 4).
Defined.


Lemma C10_witness :
  message_data (sample_body "empty-user") = Some (JString "empty-user")
  ∧ handleBadgeAwarding service_on_world sample_decode
      (sample_body "empty-user") (mkHandling (sample_world []) [])
    = (Resolved BadRequestMissingEventTypeOrUserId,
       mkHandling (sample_world []) []).
Proof.
  split; [done|].
  apply (C10_empty_userId_rejected service_on_world sample_decode
           (sample_body "empty-user") (JString "empty-user")
           (JObject [("eventType", JString "JOURNAL_ENTRY_CREATED");
                     ("userId", JString "");
                     ("timestamp", JString "2024-10-05T00:00:00Z")])
           (mkHandling (sample_world []) []) eq_refl eq_refl eq_refl).
Defined.

(** * Further properties of the repositories *)

(** ** Thresholds of the streak query *)

Lemma elem_occ_pos (g : Z) (xs : list Z) : g ∈ xs → 0 < occ g xs.
Proof.
  induction xs as [|x xs IH]; [by intros ?%elem_of_nil|].
  rewrite occ_cons. pose proof (occ_nonneg g xs).
  intros [->|Hin]%elem_of_cons; [rewrite decide_True by done; lia|].
  specialize (IH Hin). destruct (decide _); lia.
Qed.

(** Every group of [streak_lengths] has at least one row. *)
Lemma streak_lengths_pos (cd : list Streak.cd_row) :
  Forall (λ s, 1 ≤ Streak.streak_length s) (Streak.streak_lengths cd).
Proof.
  unfold Streak.streak_lengths. rewrite Forall_fmap, Forall_forall.
  intros g Hg. rewrite elem_of_remove_dups in Hg. simpl.
  rewrite group_size_occ. apply elem_occ_pos in Hg. lia.
Qed.

Lemma has_run_shorter (dates : list Z) (k k' : Z) :
  k' ≤ k → has_run dates k → has_run dates k'.
Proof. intros Hle [d Hd]. exists d. intros i Hi. apply Hd. lia. Qed.

Lemma has_run_one (dates : list Z) : has_run dates 1 ↔ dates ≠ [].
Proof.
  split.
  - intros [d Hd] ->. specialize (Hd 0 ltac:(lia)). by apply elem_of_nil in Hd.
  - destruct dates as [|d dates]; [done|]. intros _. exists d.
    intros i Hi. replace (d + i) with d by lia. left.
Qed.

(** For every threshold, positive or not, the streak query asks for a run
    of [max 1 k] days: a threshold below one asks for one active day. *)
Lemma streak_query_all (dates : list Z) (k : Z) :
  first_row_or_false (Streak.query (remove_dups dates) k) = true
  ↔ has_run dates (Z.max 1 k).
Proof.
  destruct (decide (0 < k)) as [Hk|Hk].
  { rewrite Z.max_r by lia. by apply streak_query_iff. }
  rewrite Z.max_l by lia. rewrite <-(streak_query_iff dates 1) by lia.
  unfold Streak.query, first_row_or_false. simpl.
  rewrite !bool_decide_eq_true.
  pose proof (streak_lengths_pos
                (Streak.consecutive_days (remove_dups dates))) as Hpos.
  rewrite !Exists_exists. rewrite Forall_forall in Hpos.
  split; intros (s & Hs & Hle); exists s; (split; [done|]).
  - by apply Hpos.
  - specialize (Hpos s Hs). lia.
Qed.

Lemma fmap_nonempty {A B : Type} (f : A → B) (l : list A) :
  f <$> l ≠ [] ↔ l ≠ [].
Proof. by destruct l. Qed.

Lemma filter_nonempty {A : Type} (P : A → Prop) `{∀ x, Decision (P x)}
    (l : list A) :
  filter P l ≠ [] ↔ ∃ x, x ∈ l ∧ P x.
Proof.
  split.
  - destruct (filter P l) as [|x l'] eqn:Hf; [done|]. intros _.
    assert (x ∈ filter P l) as Hx by (rewrite Hf; left).
    apply list_elem_of_filter in Hx as [? ?]. by exists x.
  - intros (x & Hx & HP) Hnil.
    by apply (filter_nil_not_elem_of P l x).
Qed.

Lemma flip_feel_dates_nonempty (sessions : list FlipFeel.t) (uid : string) :
  omap (λ f, DATE_UTC <$> FlipFeel.finished_at f)
    (FlipFeelRepository.completed sessions uid) ≠ []
  ↔ FlipFeelRepository.completed sessions uid ≠ [].
Proof.
  unfold FlipFeelRepository.completed.
  induction sessions as [|f sessions IH]; [done|].
  rewrite filter_cons. destruct (decide _) as [[_ Hfin]|]; [|done].
  destruct (FlipFeel.finished_at f) as [t|] eqn:Ht; [|done].
  simpl. by rewrite Ht.
Qed.

Lemma journal_hasFirstEntry_iff (tbl : list JournalEntry.t) (uid : string) :
  JournalEntryRepository.hasFirstEntry tbl uid = true
  ↔ ∃ e, e ∈ tbl ∧ JournalEntry.user_id e = uid
         ∧ JournalEntry.is_deleted e = false.
Proof.
  unfold JournalEntryRepository.hasFirstEntry,
    JournalEntryRepository.qualifying, first_row_or_false. simpl.
  rewrite bool_decide_eq_true, filter_nonempty.
  split; intros (e & ? & ?); exists e; tauto.
Qed.

Lemma gratitude_hasFirstEntry_iff (tbl : list GratitudeEntry.t)
    (uid : string) :
  GratitudeEntryRepository.hasFirstEntry tbl uid = true
  ↔ ∃ e, e ∈ tbl ∧ GratitudeEntry.user_id e = uid
         ∧ GratitudeEntry.is_deleted e = false.
Proof.
  unfold GratitudeEntryRepository.hasFirstEntry,
    GratitudeEntryRepository.qualifying, first_row_or_false. simpl.
  rewrite bool_decide_eq_true, filter_nonempty.
  split; intros (e & ? & ?); exists e; tauto.
Qed.

Lemma flip_feel_hasFirstEntry_iff (sessions : list FlipFeel.t)
    (uid : string) :
  FlipFeelRepository.hasFirstEntry sessions uid = true
  ↔ ∃ f t, f ∈ sessions ∧ FlipFeel.user_id f = uid
           ∧ FlipFeel.finished_at f = Some t.
Proof.
  unfold FlipFeelRepository.hasFirstEntry,
    FlipFeelRepository.completed, first_row_or_false. simpl.
  rewrite bool_decide_eq_true, filter_nonempty. split.
  - intros (f & Hf & Hu & Hfin).
    destruct (FlipFeel.finished_at f) as [t|] eqn:Ht; [|done].
    by exists f, t.
  - intros (f & t & Hf & Hu & Ht). exists f. by rewrite Ht.
Qed.

(** X1: [hasFirstEntry] answers true exactly when the user has a row that
    counts (not soft-deleted for journal and gratitude, completed for
    flip-and-feel), and for journal and gratitude it is the same as having
    reached an entry count of one. *)
Theorem X1_hasFirstEntry_exists :
  (∀ (tbl : list JournalEntry.t) (uid : string),
     (JournalEntryRepository.hasFirstEntry tbl uid = true
      ↔ ∃ e, e ∈ tbl ∧ JournalEntry.user_id e = uid
             ∧ JournalEntry.is_deleted e = false)
     ∧ JournalEntryRepository.hasFirstEntry tbl uid
       = JournalEntryRepository.hasReachedEntryCount tbl uid 1)
  ∧ (∀ (tbl : list GratitudeEntry.t) (uid : string),
     (GratitudeEntryRepository.hasFirstEntry tbl uid = true
      ↔ ∃ e, e ∈ tbl ∧ GratitudeEntry.user_id e = uid
             ∧ GratitudeEntry.is_deleted e = false)
     ∧ GratitudeEntryRepository.hasFirstEntry tbl uid
       = GratitudeEntryRepository.hasReachedEntryCount tbl uid 1)
  ∧ (∀ (sessions : list FlipFeel.t) (uid : string),
     FlipFeelRepository.hasFirstEntry sessions uid = true
     ↔ ∃ f t, f ∈ sessions ∧ FlipFeel.user_id f = uid
              ∧ FlipFeel.finished_at f = Some t).
Proof.
  split_and!.
  - intros tbl uid. split; [apply journal_hasFirstEntry_iff|].
    unfold JournalEntryRepository.hasFirstEntry,
      JournalEntryRepository.hasReachedEntryCount, first_row_or_false.
    simpl. apply bool_decide_ext.
    destruct (JournalEntryRepository.qualifying tbl uid); simpl;
      [split; [done|lia]|split; [lia|done]].
  - intros tbl uid. split; [apply gratitude_hasFirstEntry_iff|].
    unfold GratitudeEntryRepository.hasFirstEntry,
      GratitudeEntryRepository.hasReachedEntryCount, first_row_or_false.
    simpl. apply bool_decide_ext.
    destruct (GratitudeEntryRepository.qualifying tbl uid); simpl;
      [split; [done|lia]|split; [lia|done]].
  - apply flip_feel_hasFirstEntry_iff.
Qed.

(** X2: with a threshold of one or less (zero and negative ones included)
    [hasConsecutiveDays] asks for one active day: it answers as
    [hasFirstEntry] does, and for mood check-ins it is true exactly when the
    user has a check-in. *)
Theorem X2_streak_threshold_at_most_one (k : Z) (Hk : k ≤ 1) :
  (∀ tbl uid,
     JournalEntryRepository.hasConsecutiveDays tbl uid k
     = JournalEntryRepository.hasFirstEntry tbl uid)
  ∧ (∀ tbl uid,
     GratitudeEntryRepository.hasConsecutiveDays tbl uid k
     = GratitudeEntryRepository.hasFirstEntry tbl uid)
  ∧ (∀ sessions uid,
     FlipFeelRepository.hasConsecutiveDays sessions uid k
     = FlipFeelRepository.hasFirstEntry sessions uid)
  ∧ (∀ tbl uid,
     MoodCheckInRepository.hasConsecutiveDays tbl uid k = true
     ↔ ∃ c, c ∈ tbl ∧ MoodCheckIn.user_id c = uid).
Proof.
  split_and!.
  - intros tbl uid. apply eq_true_iff_eq.
    unfold JournalEntryRepository.hasConsecutiveDays,
      JournalEntryRepository.daily_entries,
      JournalEntryRepository.hasFirstEntry.
    rewrite streak_query_all, Z.max_l, has_run_one, fmap_nonempty by lia.
    unfold first_row_or_false. simpl. by rewrite bool_decide_eq_true.
  - intros tbl uid. apply eq_true_iff_eq.
    unfold GratitudeEntryRepository.hasConsecutiveDays,
      GratitudeEntryRepository.daily_entries,
      GratitudeEntryRepository.hasFirstEntry.
    rewrite streak_query_all, Z.max_l, has_run_one, fmap_nonempty by lia.
    unfold first_row_or_false. simpl. by rewrite bool_decide_eq_true.
  - intros sessions uid. apply eq_true_iff_eq.
    unfold FlipFeelRepository.hasConsecutiveDays,
      FlipFeelRepository.daily_sessions, FlipFeelRepository.hasFirstEntry.
    rewrite streak_query_all, Z.max_l, has_run_one,
      flip_feel_dates_nonempty by lia.
    unfold first_row_or_false. simpl. by rewrite bool_decide_eq_true.
  - intros tbl uid.
    unfold MoodCheckInRepository.hasConsecutiveDays,
      MoodCheckInRepository.daily_checkins, MoodCheckInRepository.qualifying.
    rewrite streak_query_all, Z.max_l, has_run_one, fmap_nonempty,
      filter_nonempty by lia.
    done.
Qed.

Lemma streak_query_antitone (dates : list Z) (k k' : Z) :
  k' ≤ k →
  first_row_or_false (Streak.query (remove_dups dates) k) = true →
  first_row_or_false (Streak.query (remove_dups dates) k') = true.
Proof.
  intros Hle. rewrite !streak_query_all. apply has_run_shorter. lia.
Qed.

(** X3: a streak of [k] days is also a streak of every shorter length, and
    a count of [n] entries is also every smaller count: whoever qualifies
    for a threshold qualifies for all lower ones. *)
Theorem X3_thresholds_antitone (k k' : Z) (Hle : k' ≤ k) :
  (∀ tbl uid,
     JournalEntryRepository.hasConsecutiveDays tbl uid k = true →
     JournalEntryRepository.hasConsecutiveDays tbl uid k' = true)
  ∧ (∀ tbl uid,
     GratitudeEntryRepository.hasConsecutiveDays tbl uid k = true →
     GratitudeEntryRepository.hasConsecutiveDays tbl uid k' = true)
  ∧ (∀ tbl uid,
     MoodCheckInRepository.hasConsecutiveDays tbl uid k = true →
     MoodCheckInRepository.hasConsecutiveDays tbl uid k' = true)
  ∧ (∀ sessions uid,
     FlipFeelRepository.hasConsecutiveDays sessions uid k = true →
     FlipFeelRepository.hasConsecutiveDays sessions uid k' = true)
  ∧ (∀ tbl uid,
     JournalEntryRepository.hasReachedEntryCount tbl uid k = true →
     JournalEntryRepository.hasReachedEntryCount tbl uid k' = true)
  ∧ (∀ tbl uid,
     GratitudeEntryRepository.hasReachedEntryCount tbl uid k = true →
     GratitudeEntryRepository.hasReachedEntryCount tbl uid k' = true).
Proof.
  split_and!; intros tbl uid.
  - by apply streak_query_antitone.
  - by apply streak_query_antitone.
  - by apply streak_query_antitone.
  - by apply streak_query_antitone.
  - unfold JournalEntryRepository.hasReachedEntryCount, first_row_or_false.
    simpl. rewrite !bool_decide_eq_true. lia.
  - unfold GratitudeEntryRepository.hasReachedEntryCount, first_row_or_false.
    simpl. rewrite !bool_decide_eq_true. lia.
Qed.

(** A run of [m] days needs [m] dates. *)
Lemma has_run_length (dates : list Z) (m : Z) :
  has_run dates m → m ≤ Z.of_nat (length dates).
Proof.
  intros [d Hd]. destruct (decide (0 ≤ m)); [|lia].
  assert (seqZ d m ⊆+ dates) as Hsub.
  { apply NoDup_submseteq; [apply NoDup_seqZ|].
    intros x Hx. apply elem_of_seqZ in Hx.
    replace x with (d + (x - d)) by lia. apply Hd. lia. }
  apply submseteq_length in Hsub. rewrite length_seqZ in Hsub. lia.
Qed.

(** X4: a streak of [k] days takes at least [k] entries: whenever
    [hasConsecutiveDays] answers true for [k], so does
    [hasReachedEntryCount] (journal and gratitude). *)
Theorem X4_streak_needs_as_many_entries :
  (∀ tbl uid k,
     JournalEntryRepository.hasConsecutiveDays tbl uid k = true →
     JournalEntryRepository.hasReachedEntryCount tbl uid k = true)
  ∧ (∀ tbl uid k,
     GratitudeEntryRepository.hasConsecutiveDays tbl uid k = true →
     GratitudeEntryRepository.hasReachedEntryCount tbl uid k = true).
Proof.
  split; intros tbl uid k.
  - unfold JournalEntryRepository.hasConsecutiveDays,
      JournalEntryRepository.daily_entries,
      JournalEntryRepository.hasReachedEntryCount.
    rewrite streak_query_all. intros Hrun%has_run_length.
    rewrite length_fmap in Hrun.
    unfold first_row_or_false. simpl. rewrite bool_decide_eq_true. lia.
  - unfold GratitudeEntryRepository.hasConsecutiveDays,
      GratitudeEntryRepository.daily_entries,
      GratitudeEntryRepository.hasReachedEntryCount.
    rewrite streak_query_all. intros Hrun%has_run_length.
    rewrite length_fmap in Hrun.
    unfold first_row_or_false. simpl. rewrite bool_decide_eq_true. lia.
Qed.

(** ** What the answers depend on *)




Lemma streak_query_same_dates (l1 l2 : list Z) (k : Z) :
  (∀ d, d ∈ l1 ↔ d ∈ l2) →
  Streak.query (remove_dups l1) k = Streak.query (remove_dups l2) k.
Proof.
  intros Hmem. apply streak_query_perm.
  apply NoDup_Permutation; try apply NoDup_remove_dups.
  intros d. by rewrite !elem_of_remove_dups.
Qed.

(** X6: several records on one UTC day count once.  A further row of the
    user dated on a day on which the user already has a row that counts
    leaves [hasConsecutiveDays] unchanged, for every threshold, in each of
    the four repositories. *)
Theorem X6_same_day_rows_count_once :
  (∀ tbl uid e e' k,
     e ∈ tbl → JournalEntry.user_id e = uid →
     JournalEntry.is_deleted e = false →
     DATE_UTC (JournalEntry.created_at e')
       = DATE_UTC (JournalEntry.created_at e) →
     JournalEntryRepository.hasConsecutiveDays (e' :: tbl) uid k
     = JournalEntryRepository.hasConsecutiveDays tbl uid k)
  ∧ (∀ tbl uid e e' k,
     e ∈ tbl → GratitudeEntry.user_id e = uid →
     GratitudeEntry.is_deleted e = false →
     DATE_UTC (GratitudeEntry.created_at e')
       = DATE_UTC (GratitudeEntry.created_at e) →
     GratitudeEntryRepository.hasConsecutiveDays (e' :: tbl) uid k
     = GratitudeEntryRepository.hasConsecutiveDays tbl uid k)
  ∧ (∀ tbl uid c c' k,
     c ∈ tbl → MoodCheckIn.user_id c = uid →
     DATE_UTC (MoodCheckIn.checked_in_at c')
       = DATE_UTC (MoodCheckIn.checked_in_at c) →
     MoodCheckInRepository.hasConsecutiveDays (c' :: tbl) uid k
     = MoodCheckInRepository.hasConsecutiveDays tbl uid k)
  ∧ (∀ sessions uid f f' t t' k,
     f ∈ sessions → FlipFeel.user_id f = uid →
     FlipFeel.finished_at f = Some t → FlipFeel.finished_at f' = Some t' →
     DATE_UTC t' = DATE_UTC t →
     FlipFeelRepository.hasConsecutiveDays (f' :: sessions) uid k
     = FlipFeelRepository.hasConsecutiveDays sessions uid k).
Proof.
  split_and!.
  - intros tbl uid e e' k He Hu Hd Hdate.
    unfold JournalEntryRepository.hasConsecutiveDays,
      JournalEntryRepository.daily_entries,
      JournalEntryRepository.qualifying.
    f_equal. apply streak_query_same_dates. intros d.
    rewrite filter_cons. destruct (decide _); [|done].
    rewrite fmap_cons, elem_of_cons. split; [|by right].
    intros [->|?]; [|done]. simpl. rewrite Hdate.
    apply (list_elem_of_fmap_2 (DATE_UTC ∘ JournalEntry.created_at)).
    by apply list_elem_of_filter.
  - intros tbl uid e e' k He Hu Hd Hdate.
    unfold GratitudeEntryRepository.hasConsecutiveDays,
      GratitudeEntryRepository.daily_entries,
      GratitudeEntryRepository.qualifying.
    f_equal. apply streak_query_same_dates. intros d.
    rewrite filter_cons. destruct (decide _); [|done].
    rewrite fmap_cons, elem_of_cons. split; [|by right].
    intros [->|?]; [|done]. simpl. rewrite Hdate.
    apply (list_elem_of_fmap_2 (DATE_UTC ∘ GratitudeEntry.created_at)).
    by apply list_elem_of_filter.
  - intros tbl uid c c' k Hc Hu Hdate.
    unfold MoodCheckInRepository.hasConsecutiveDays,
      MoodCheckInRepository.daily_checkins,
      MoodCheckInRepository.qualifying.
    f_equal. apply streak_query_same_dates. intros d.
    rewrite filter_cons. destruct (decide _); [|done].
    rewrite fmap_cons, elem_of_cons. split; [|by right].
    intros [->|?]; [|done]. simpl. rewrite Hdate.
    apply (list_elem_of_fmap_2 (DATE_UTC ∘ MoodCheckIn.checked_in_at)).
    by apply list_elem_of_filter.
  - intros sessions uid f f' t t' k Hf Hu Ht Ht' Hdate.
    unfold FlipFeelRepository.hasConsecutiveDays,
      FlipFeelRepository.daily_sessions, FlipFeelRepository.completed.
    f_equal. apply streak_query_same_dates. intros d.
    rewrite filter_cons. destruct (decide _); [|done].
    cbn [omap list_omap]. rewrite Ht'. cbn [fmap option_fmap option_map].
    rewrite elem_of_cons.
    split; [|by right]. intros [->|?]; [|done]. rewrite Hdate.
    apply list_elem_of_omap. exists f. rewrite Ht. split; [|done].
    apply list_elem_of_filter. by rewrite Ht.
Qed.

(** ** Category coverage at the edges *)





(** ** Further activity never takes a qualification away *)

Lemma has_run_mono (l1 l2 : list Z) (k : Z) :
  (∀ d, d ∈ l1 → d ∈ l2) → has_run l1 k → has_run l2 k.
Proof. intros Hsub [d Hd]. exists d. intros i Hi. by apply Hsub, Hd. Qed.

Lemma filter_length_submseteq {A : Type} (P : A → Prop)
    `{∀ x, Decision (P x)} (l1 l2 : list A) :
  l1 ⊆+ l2 → (length (filter P l1) ≤ length (filter P l2))%nat.
Proof.
  intros [k Hk]%submseteq_Permutation.
  rewrite Hk, filter_app, length_app. lia.
Qed.

Lemma answered_mono (s1 s2 : list FlipFeel.t)
    (r1 r2 : list FlipFeelResponse.t) (q1 q2 : list FlipFeelQuestions.t)
    (uid c : string) :
  s1 ⊆+ s2 → r1 ⊆+ r2 → q1 ⊆+ q2 →
  answered_in_completed_session s1 r1 q1 uid c →
  answered_in_completed_session s2 r2 q2 uid c.
Proof.
  intros Hs Hr Hq (f & r & q & Hf & Hrr & Hqq & Hrest).
  exists f, r, q. split_and!; try tauto; by eapply elem_of_submseteq.
Qed.

(** X9: rows added to the history never take a qualification away.  If
    every table of [d'] has all the rows of [d] (more entries, check-ins,
    sessions, responses or questions; nothing deleted or changed), every
    history query that answers true on [d] answers true on [d'], for every
    user and threshold. *)
Theorem X9_more_history_keeps_answers (d d' : Database) (c : StorageCall)
    (Hgrows : history_grows d d') (Htrue : answer d c = true) :
  answer d' c = true.
Proof.
  destruct Hgrows as (Hj & Hg & Hm & Hs & Hr & Hq).
  destruct c as [u|u b|u|u k|u k|u|u cats|u k|u k|u|u k|u k];
    cbn [answer] in *; try done.
  - apply journal_hasFirstEntry_iff in Htrue as (e & He & ?).
    apply journal_hasFirstEntry_iff. exists e.
    split; [by eapply elem_of_submseteq|done].
  - revert Htrue. unfold JournalEntryRepository.hasConsecutiveDays,
      JournalEntryRepository.daily_entries, JournalEntryRepository.qualifying.
    rewrite !streak_query_all. apply has_run_mono. intros x.
    rewrite !list_elem_of_fmap. intros (e & -> & He). exists e.
    split; [done|]. apply list_elem_of_filter in He as [? ?].
    apply list_elem_of_filter. split; [done|by eapply elem_of_submseteq].
  - revert Htrue. unfold JournalEntryRepository.hasReachedEntryCount,
      JournalEntryRepository.qualifying, first_row_or_false. simpl.
    rewrite !bool_decide_eq_true.
    pose proof (filter_length_submseteq
      (λ e, JournalEntry.user_id e = u ∧ JournalEntry.is_deleted e = false)
      _ _ Hj). lia.
  - apply flip_feel_hasFirstEntry_iff in Htrue as (f & t & Hf & ?).
    apply flip_feel_hasFirstEntry_iff. exists f, t.
    split; [by eapply elem_of_submseteq|done].
  - revert Htrue. rewrite !hasCompletedAllCategories_count.
    intros (cs & Hnd & Hcs & Hlen). exists cs. split_and!; [done| |done].
    intros c Hc. destruct (Hcs c Hc) as [? Ha]. split; [done|].
    by apply (answered_mono _ _ _ _ _ _ _ _ Hs Hr Hq).
  - revert Htrue. unfold FlipFeelRepository.hasConsecutiveDays,
      FlipFeelRepository.daily_sessions, FlipFeelRepository.completed.
    rewrite !streak_query_all. apply has_run_mono. intros x.
    rewrite !list_elem_of_omap. intros (f & Hf & Hx). exists f.
    split; [|done]. apply list_elem_of_filter in Hf as [? ?].
    apply list_elem_of_filter. split; [done|by eapply elem_of_submseteq].
  - revert Htrue. unfold MoodCheckInRepository.hasConsecutiveDays,
      MoodCheckInRepository.daily_checkins, MoodCheckInRepository.qualifying.
    rewrite !streak_query_all. apply has_run_mono. intros x.
    rewrite !list_elem_of_fmap. intros (e & -> & He). exists e.
    split; [done|]. apply list_elem_of_filter in He as [? ?].
    apply list_elem_of_filter. split; [done|by eapply elem_of_submseteq].
  - apply gratitude_hasFirstEntry_iff in Htrue as (e & He & ?).
    apply gratitude_hasFirstEntry_iff. exists e.
    split; [by eapply elem_of_submseteq|done].
  - revert Htrue. unfold GratitudeEntryRepository.hasReachedEntryCount,
      GratitudeEntryRepository.qualifying, first_row_or_false. simpl.
    rewrite !bool_decide_eq_true.
    pose proof (filter_length_submseteq
      (λ e, GratitudeEntry.user_id e = u
            ∧ GratitudeEntry.is_deleted e = false) _ _ Hg). lia.
  - revert Htrue. unfold GratitudeEntryRepository.hasConsecutiveDays,
      GratitudeEntryRepository.daily_entries,
      GratitudeEntryRepository.qualifying.
    rewrite !streak_query_all. apply has_run_mono. intros x.
    rewrite !list_elem_of_fmap. intros (e & -> & He). exists e.
    split; [done|]. apply list_elem_of_filter in He as [? ?].
    apply list_elem_of_filter. split; [done|by eapply elem_of_submseteq].
Qed.

(** * Further properties of the evaluation passes *)

Lemma set_user_badges_id (d : Database) : set_user_badges (user_badges d) d = d.
Proof. by destruct d. Qed.

Lemma set_user_badges_twice (t1 t2 : list UserBadge.t) (d : Database) :
  set_user_badges t2 (set_user_badges t1 d) = set_user_badges t2 d.
Proof. by destruct d. Qed.

(** What successful storage calls leave behind: the history as it was and
    the ledger with records appended, each stamped with the time of the
    pass and each for a grant among the calls. *)
Lemma apply_effects_appends (cs : list StorageCall) (t : timestamp)
    (d : Database) :
  ∃ added,
    apply_effects cs t d = set_user_badges (user_badges d ++ added) d
    ∧ Forall (λ g, UserBadge.awarded_at g = t
                   ∧ GrantBadgeByName (UserBadge.user_id g)
                       (UserBadge.badge_name g) ∈ cs) added.
Proof.
  revert d. induction cs as [|c cs IH]; intros d.
  - exists []. rewrite app_nil_r, set_user_badges_id. by split.
  - rewrite apply_effects_cons.
    destruct (IH (effect c t d)) as (added & -> & Hadd).
    assert (Forall (λ g, UserBadge.awarded_at g = t
                         ∧ GrantBadgeByName (UserBadge.user_id g)
                             (UserBadge.badge_name g) ∈ c :: cs) added)
      as Hadd'.
    { eapply Forall_impl; [done|]. intros g [? ?].
      split; [done|by right]. }
    destruct c; try (by exists added).
    cbn [effect]. unfold BadgesRepository.grantBadgeByName.
    destruct (decide _).
    + exists added. by rewrite set_user_badges_id.
    + eexists (_ :: added). rewrite set_user_badges_twice.
      cbn [user_badges set_user_badges]. rewrite <-app_assoc. split; [done|].
      constructor; [|done]. split; [done|left].
Qed.

(** X10: what a pass never touches.  However a pass ends and whatever
    storage does, the six history tables are as they were, no grant record
    is removed or changed, and every record added is for the user of the
    pass, stamped with the time of the pass, for a badge of a rule of the
    domain that the user did not hold and whose predicate holds. *)
Theorem X10_pass_only_appends_own_grants :
  ∀ (dom : ActivityDomain) (userId : string) (w : World),
  let w' := (worker dom userId w).2 in
  ∃ added,
    db w' = set_user_badges (user_badges (db w) ++ added) (db w)
    ∧ now w' = now w
    ∧ Forall (λ g, UserBadge.user_id g = userId
                   ∧ UserBadge.awarded_at g = now w
                   ∧ (UserBadge.badge_name g ∉ grant_set (db w) userId)
                   ∧ ∃ r, r ∈ catalogue dom
                          ∧ rule_badge r = UserBadge.badge_name g
                          ∧ answer (db w) (rule_check r userId) = true)
        added.
Proof.
  intros dom userId w w'. subst w'. rewrite worker_run.
  destruct (run_calls_shape (plan (db w) userId dom) w)
    as (evs & done & _ & Hpre1 & Hpre2 & -> & -> & _).
  destruct (apply_effects_appends done (now w) (db w)) as (added & -> & Hadd).
  exists added. split_and!; [done|done|].
  eapply Forall_impl; [done|]. intros g [Ht Hin]. simpl in Hin.
  apply elem_of_grant_calls in Hin.
  apply (pass_grants_sound dom userId (db w) done) in Hin
    as (Hu & Hout & r & Hr & Hb & Ha).
  - split_and!; [done|done|done|]. by exists r.
  - by etrans.
Qed.

Lemma at_most_one_grant_effects (cs : list StorageCall) (t : timestamp)
    (d : Database) :
  at_most_one_grant (user_badges d) →
  at_most_one_grant (user_badges (apply_effects cs t d)).
Proof.
  revert d. induction cs as [|c cs IH]; intros d Hd; [done|].
  rewrite apply_effects_cons. apply IH.
  destruct c; try done. cbn [effect user_badges set_user_badges].
  by apply at_most_one_grant_step.
Qed.

(** X11: a pass keeps the ledger free of duplicates: if no (user, badge)
    pair has two grant records before a pass, none has after it, however
    the pass ends. *)
Theorem X11_pass_keeps_grants_unique
    (dom : ActivityDomain) (userId : string) (w : World)
    (Hinv : at_most_one_grant (user_badges (db w))) :
  at_most_one_grant (user_badges (db (worker dom userId w).2)).
Proof.
  rewrite worker_run.
  destruct (run_calls_shape (plan (db w) userId dom) w)
    as (evs & done & _ & _ & _ & -> & _ & _).
  by apply at_most_one_grant_effects.
Qed.

(** The badges a user holds after the calls of a plan prefix. *)
Lemma granted_after_plan (dom : ActivityDomain) (userId : string)
    (d : Database) (t : timestamp) (u b : string) :
  BadgesRepository.granted
    (user_badges (apply_effects (plan d userId dom) t d)) u b
  ↔ BadgesRepository.granted (user_badges d) u b
    ∨ (u = userId
       ∧ ∃ r, r ∈ catalogue dom ∧ rule_badge r = b
              ∧ answer d (rule_check r userId) = true).
Proof.
  rewrite granted_apply_effects, <-elem_of_grant_calls. split.
  - intros [?|Hin]; [by left|]. right.
    apply (pass_grants_sound dom userId d) in Hin as (? & _ & ?); done.
  - intros [?|(-> & r & Hr & <- & Ha)]; [by left|].
    destruct (decide (rule_badge r ∈ grant_set d userId)) as [Hin|Hout].
    + left. by apply elem_of_grant_set.
    + right. rewrite grant_calls_plan. apply list_elem_of_fmap.
      exists r. split; [done|]. unfold newly_qualifying.
      by apply list_elem_of_filter.
Qed.

(** X12: what a completed pass establishes.  After a pass that resolved, a
    user holds a badge exactly if the user held it before, or it is the
    user of the pass and the badge of a rule of the domain whose predicate
    holds on the history. *)
Theorem X12_resolved_pass_grants_all_qualifying
    (dom : ActivityDomain) (userId : string) (w : World)
    (Hok : (worker dom userId w).1 = Resolved ()) :
  ∀ u b,
    BadgesRepository.granted (user_badges (db (worker dom userId w).2)) u b
    ↔ BadgesRepository.granted (user_badges (db w)) u b
      ∨ (u = userId
         ∧ ∃ r, r ∈ catalogue dom ∧ rule_badge r = b
                ∧ answer (db w) (rule_check r userId) = true).
Proof.
  revert Hok. rewrite worker_run. intros Hok u b.
  destruct (run_calls_shape (plan (db w) userId dom) w)
    as (evs & done & _ & _ & _ & -> & _ & Hres).
  destruct (Hres Hok) as [_ ->]. apply granted_after_plan.
Qed.

(** X13: redelivery converges.  Let a pass end in any way (say it failed
    half way), and let the same pass then run again, at any later time, and
    resolve.  The user then holds exactly the badges held before the first
    pass and those of the rules of the domain whose predicate holds: the
    same as after one pass that resolved. *)
Theorem X13_retry_after_failure_converges
    (dom : ActivityDomain) (userId : string) (w : World)
    (t2 : timestamp) (faults2 : list bool) :
  let w1 := (worker dom userId w).2 in
  let second := worker dom userId (mkWorld (db w1) t2 faults2 (trace w1)) in
  second.1 = Resolved () →
  ∀ u b,
    BadgesRepository.granted (user_badges (db second.2)) u b
    ↔ BadgesRepository.granted (user_badges (db w)) u b
      ∨ (u = userId
         ∧ ∃ r, r ∈ catalogue dom ∧ rule_badge r = b
                ∧ answer (db w) (rule_check r userId) = true).
Proof.
  intros w1 second. subst w1 second. rewrite !worker_run. cbn [db].
  destruct (run_calls_shape (plan (db w) userId dom) w)
    as (evs1 & done1 & _ & Hpre1 & Hpre1' & Hdb1 & _ & _).
  set (w1 := (run_calls (plan (db w) userId dom) w).2) in *.
  intros Hok u b.
  destruct (run_calls_shape (plan (db w1) userId dom)
              (mkWorld (db w1) t2 faults2 (trace w1)))
    as (evs2 & done2 & _ & _ & _ & Hdb2 & _ & Hres2).
  destruct (Hres2 Hok) as [_ ->]. cbn [db now] in Hdb2.
  rewrite Hdb2, granted_after_plan.
  assert (∀ c, answer (db w1) c = answer (db w) c) as Hans
    by (intros c; by rewrite Hdb1, answer_apply_effects).
  rewrite Hdb1 at 1. rewrite granted_apply_effects.
  setoid_rewrite Hans. split; [|tauto].
  intros [[?|Hin]|?]; [by left| |by right]. right.
  apply elem_of_grant_calls in Hin.
  apply (pass_grants_sound dom userId (db w) done1) in Hin
    as (? & _ & ?); [done|by etrans].
Qed.

(** ** Which storage calls a pass makes *)

Lemma elem_of_rule_calls (G : gset string) (d : Database) (u : string)
    (rules : list BadgeRule) (c : StorageCall) :
  c ∈ rules ≫= rule_calls G d u →
  ∃ r, r ∈ rules ∧ (rule_badge r ∉ G)
       ∧ (c = rule_check r u ∨ c = GrantBadgeByName u (rule_badge r)).
Proof.
  rewrite list_elem_of_bind. intros (r & Hc & Hr). exists r.
  unfold rule_calls in Hc. case_bool_decide as HG; [by apply elem_of_nil in Hc|].
  split_and!; [done|done|].
  apply elem_of_cons in Hc as [->|Hc]; [by left|]. right.
  destruct (answer d (rule_check r u)); [|by apply elem_of_nil in Hc].
  by apply list_elem_of_singleton in Hc.
Qed.

Lemma rule_calls_length (G : gset string) (d : Database) (u : string)
    (rules : list BadgeRule) :
  (length (rules ≫= rule_calls G d u) ≤ 2 * length rules)%nat.
Proof.
  induction rules as [|r rules IH]; [done|].
  rewrite bind_cons, length_app. unfold rule_calls at 1.
  case_bool_decide; [simpl; lia|].
  destruct (answer d (rule_check r u)); simpl; lia.
Qed.

Lemma rule_calls_all_held (G : gset string) (d : Database) (u : string)
    (rules : list BadgeRule) :
  (∀ r, r ∈ rules → rule_badge r ∈ G) → rules ≫= rule_calls G d u = [].
Proof.
  induction rules as [|r rules IH]; intros Hall; [done|].
  rewrite bind_cons, IH by (intros; apply Hall; by right).
  unfold rule_calls. rewrite bool_decide_eq_true_2; [done|].
  apply Hall. left.
Qed.

(** X14: a pass loads the grant set first and once, and spends no history
    query on a badge the user already holds.  Its storage calls are
    [getUserBadges] followed by at most two calls per rule of the domain;
    every history query among them is the check of a rule whose badge is
    not in the loaded set, and [getUserBadges] is not called again.  When
    the user holds every badge of the domain, loading is the only call. *)
Theorem X14_pass_skips_held_badges :
  ∀ (dom : ActivityDomain) (userId : string) (w : World),
  ∃ evs,
    trace (worker dom userId w).2 = trace w ++ GetUserBadges userId :: evs
    ∧ (length evs ≤ 2 * length (catalogue dom))%nat
    ∧ (∀ c, c ∈ evs →
         ∃ r, r ∈ catalogue dom
              ∧ (rule_badge r ∉ grant_set (db w) userId)
              ∧ (c = rule_check r userId
                 ∨ c = GrantBadgeByName userId (rule_badge r)))
    ∧ ((∀ r, r ∈ catalogue dom → rule_badge r ∈ grant_set (db w) userId) →
       evs = []).
Proof.
  intros dom userId w. rewrite worker_run. unfold plan.
  set (rest := catalogue dom ≫= rule_calls (grant_set (db w) userId) (db w)
                                   userId).
  rewrite run_calls_cons. destruct (next_fails w).
  - exists []. cbn [snd trace after_call]. split_and!; [done|simpl; lia| |done].
    by intros c ?%elem_of_nil.
  - destruct (run_calls_shape rest (after_call (GetUserBadges userId) true w))
      as (evs & _ & Htr & Hpre & _).
    exists evs. rewrite Htr. cbn [trace after_call].
    rewrite <-app_assoc. split_and!; [done| | |].
    + apply prefix_length in Hpre. pose proof (rule_calls_length
        (grant_set (db w) userId) (db w) userId (catalogue dom)).
      fold rest in H. lia.
    + intros c Hc. apply (elem_of_rule_calls _ (db w)).
      by apply (elem_of_prefix evs).
    + intros Hall. unfold rest in Hpre.
      rewrite rule_calls_all_held in Hpre by done.
      by apply prefix_nil_inv.
Qed.

(** ** Passes of other domains and other users *)

Lemma catalogue_badges_disjoint (dom dom' : ActivityDomain)
    (r r' : BadgeRule) :
  dom ≠ dom' → r ∈ catalogue dom → r' ∈ catalogue dom' →
  rule_badge r ≠ rule_badge r'.
Proof.
  intros Hne Hr Hr' Heq.
  assert (NoDup (rule_badge <$> (catalogue dom ++ catalogue dom'))) as Hnd
    by (destruct dom, dom'; try done; by apply (bool_decide_unpack _)).
  rewrite fmap_app in Hnd. apply NoDup_app in Hnd as (_ & Hdisj & _).
  apply (Hdisj (rule_badge r)); [by apply list_elem_of_fmap_2|].
  rewrite Heq. by apply list_elem_of_fmap_2.
Qed.

Lemma bind_rule_calls_agree (G1 G2 : gset string) (d1 d2 : Database)
    (u : string) (rules : list BadgeRule) :
  (∀ c, answer d1 c = answer d2 c) →
  (∀ r, r ∈ rules → rule_badge r ∈ G1 ↔ rule_badge r ∈ G2) →
  rules ≫= rule_calls G1 d1 u = rules ≫= rule_calls G2 d2 u.
Proof.
  intros Hans. induction rules as [|r rules IH]; intros HG; [done|].
  rewrite !bind_cons, IH by (intros; apply HG; by right).
  f_equal. unfold rule_calls. rewrite Hans.
  assert (rule_badge r ∈ G1 ↔ rule_badge r ∈ G2) as Hr by (apply HG; left).
  by rewrite (bool_decide_ext (rule_badge r ∈ G1) (rule_badge r ∈ G2) Hr).
Qed.

(** The outcome and the trace of a list of calls do not depend on the
    database they run on. *)
Lemma run_calls_database (cs : list StorageCall) (w : World) (d' : Database) :
  (run_calls cs (mkWorld d' (now w) (faults w) (trace w))).1
    = (run_calls cs w).1
  ∧ trace (run_calls cs (mkWorld d' (now w) (faults w) (trace w))).2
    = trace (run_calls cs w).2.
Proof.
  destruct (fault_cases (faults w) (length cs)) as [Hok|(n & rest & Hn & Hf)].
  - by rewrite !run_calls_ok by done.
  - destruct (lookup_lt_is_Some_2 cs n Hn) as [c Hc].
    by rewrite !(run_calls_fail cs _ n rest c) by done.
Qed.

(** X15: passes do not get in each other's way.  After a pass of one
    domain for one user, however it ended, a pass of another domain, or for
    another user, makes the same storage calls, invokes the same grants and
    ends the same way as it would have without the first pass. *)
Theorem X15_other_pass_unaffected
    (dom dom' : ActivityDomain) (userId userId' : string) (w : World)
    (t : timestamp) (fs : list bool) (tr : list StorageCall)
    (Hother : dom ≠ dom' ∨ userId ≠ userId') :
  let w1 := (worker dom userId w).2 in
  let after := worker dom' userId' (mkWorld (db w1) t fs tr) in
  let alone := worker dom' userId' (mkWorld (db w) t fs tr) in
  after.1 = alone.1 ∧ trace after.2 = trace alone.2.
Proof.
  intros w1 after alone. subst w1 after alone. rewrite !worker_run.
  cbn [db].
  destruct (run_calls_shape (plan (db w) userId dom) w)
    as (evs1 & done1 & _ & Hpre1 & Hpre1' & Hdb1 & _ & _).
  set (w1 := (run_calls (plan (db w) userId dom) w).2) in *.
  assert (plan (db w1) userId' dom' = plan (db w) userId' dom') as ->.
  { unfold plan. f_equal. apply bind_rule_calls_agree.
    - intros c. by rewrite Hdb1, answer_apply_effects.
    - intros r' Hr'. rewrite !elem_of_grant_set, Hdb1, granted_apply_effects.
      split; [|by left]. intros [?|Hin]; [done|]. exfalso.
      apply elem_of_grant_calls in Hin.
      apply (pass_grants_sound dom userId (db w) done1) in Hin
        as (Hu & _ & r & Hr & Hb & _); [|by etrans].
      destruct Hother as [Hd|Hu']; [|done].
      by apply (catalogue_badges_disjoint dom dom' r r'). }
  apply (run_calls_database _ (mkWorld (db w) t fs tr) (db w1)).
Qed.

(** * Further properties of the controller *)

Section controller_answers.
Context {S : Type}.
Variable badgeWorkerService : ActivityDomain → option JSON → Async S unit.
Variable decode : JSON → Outcome JSON.

#[local] Abbreviation handle' :=
  (handleBadgeAwarding badgeWorkerService decode).

(** X16: the handler always answers, and calls at most one worker.  For
    every request body, decoder and service, [handleBadgeAwarding] resolves
    with a response of status 204, 400 or 500.  Either it calls no worker,
    leaves the service state alone and does not answer 204; or it calls
    exactly one worker, once, with a truthy user id, the state is the one
    that worker left, and the answer is 204 exactly if the worker
    resolved. *)
Theorem X16_handler_always_answers (body : option JSON) (h : Handling) :
  ∃ resp,
    (handle' body h).1 = Resolved resp
    ∧ (status resp = 204 ∨ status resp = 400 ∨ status resp = 500)
    ∧ (((handle' body h).2 = h ∧ status resp ≠ 204)
       ∨ ∃ dom uid,
           (handle' body h).2
           = mkHandling (badgeWorkerService dom uid (service_state h)).2
               (worker_calls h ++ [(dom, uid)])
           ∧ truthy uid = true
           ∧ (status resp = 204
              ↔ (badgeWorkerService dom uid (service_state h)).1
                = Resolved ())).
Proof.
  unfold handleBadgeAwarding, try_catch, Async_bind, lift, Async_ret,
    call_worker.
  repeat
    match goal with
    | |- context [match ?x with _ => _ end] =>
        lazymatch x with
        | context [match _ with _ => _ end] => fail
        | _ => destruct x eqn:?
        end
    end;
    cbn [fst snd negb] in *; simplify_eq;
    try (eexists; split; [done|]; split; [cbn; tauto|]; left; by split).
  all: repeat match goal with u : unit |- _ => destruct u end.
  all: match goal with
       | Hp : badgeWorkerService ?dom ?uid _ = _ |- _ =>
           eexists; split; [done|]; split; [cbn; tauto|]; right;
           exists dom, uid; rewrite Hp; split_and!;
           [done
           |destruct (truthy uid); simpl in *; done
           |cbn; split; intros; done]
       end.
Qed.

(** X19: a message whose data cannot be decoded (not base64 text of valid
    JSON) is answered with HTTP 500 carrying the decoder's error, not with
    400; no worker is called. *)
Theorem X19_undecodable_data_answered_500 (body : option JSON) (data : JSON)
    (e : Error) (h : Handling)
    (Hdata : message_data body = Some data)
    (Hdecode : decode data = Rejected e) :
  handle' body h = (Resolved (InternalServerError e), h)
  ∧ status (InternalServerError e) = 500.
Proof.
  split; [|done].
  apply envelope_inv in Hdata as (fields & message & -> & Hm & Hd & Ht).
  unfold handleBadgeAwarding, try_catch, Async_bind, lift, Async_ret.
  cbn [truthy negb get]. rewrite Hm. cbn [truthy negb get].
  rewrite Hd, Ht. cbn [negb from_option]. by rewrite Hdecode.
Qed.

End controller_answers.

(** X17: routing.  A message whose payload carries the event type of a
    domain and a non-empty string user id reaches the worker of that domain
    and no other, once, with that user id; the answer is 204 if the worker
    resolves and 500 with the worker's error if it rejects, and the state
    is the one the worker left. *)
Theorem X17_known_event_routed_to_its_worker {S : Type}
    (badgeWorkerService : ActivityDomain → option JSON → Async S unit)
    (decode : JSON → Outcome JSON) (body : option JSON) (data : JSON)
    (pfields : list (string * JSON)) (dom : ActivityDomain) (u : string)
    (h : Handling)
    (Hdata : message_data body = Some data)
    (Hdecode : decode data = Resolved (JObject pfields))
    (Hevent : assoc "eventType" pfields = Some (JString (event_name dom)))
    (Huser : assoc "userId" pfields = Some (JString u))
    (Hne : u ≠ ""%string) :
  let r := handleBadgeAwarding badgeWorkerService decode body h in
  let called := badgeWorkerService dom (Some (JString u)) (service_state h) in
  worker_calls r.2 = worker_calls h ++ [(dom, Some (JString u))]
  ∧ service_state r.2 = called.2
  ∧ (called.1 = Resolved () → r.1 = Resolved NoContent)
  ∧ (∀ e, called.1 = Rejected e → r.1 = Resolved (InternalServerError e)).
Proof.
  intros r called. subst r called.
  rewrite (handle_known_event badgeWorkerService decode body data pfields
             dom u h) by done.
  cbn [fst snd worker_calls service_state]. split_and!; [done|done| |].
  - by intros ->.
  - by intros e ->.
Qed.

(** X18: a body that fails the envelope checks (no body, no [message], no
    [data], or a falsy one) is answered with one of the two envelope 400
    responses whatever the decoder and the service are: neither is
    consulted, and the service state is untouched. *)
Theorem X18_bad_envelope_answered_400 {S : Type} (body : option JSON)
    (h : @Handling S) (Hbad : message_data body = None) :
  ∃ resp,
    (resp = BadRequestInvalidMessageFormat ∨ resp = BadRequestNoDataField)
    ∧ status resp = 400
    ∧ ∀ badgeWorkerService decode,
        handleBadgeAwarding badgeWorkerService decode body h
        = (Resolved resp, h).
Proof.
  unfold message_data in Hbad.
  unfold handleBadgeAwarding, try_catch, Async_bind, lift, Async_ret.
  destruct body as [[|b|n|s|items|fields]|]; cbn [truthy negb get];
    try (eexists; split_and!; [by left|done|done]).
  - destruct b; eexists; (split_and!; [by left|done|done]).
  - destruct (negb (bool_decide (n = 0)));
      eexists; (split_and!; [by left|done|done]).
  - destruct (negb (bool_decide (s = ""%string)));
      eexists; (split_and!; [by left|done|done]).
  - destruct (assoc "message" fields) as [[|b|n|s|items|message]|] eqn:Hm;
      cbn [truthy negb get];
      try (eexists; split_and!; [by left|done|done]);
      try (eexists; split_and!; [by right|done|done]).
    + destruct b; eexists;
        (split_and!; [by left|done|done]) || (split_and!; [by right|done|done]).
    + destruct (negb (bool_decide (n = 0))); eexists;
        (split_and!; [by left|done|done]) || (split_and!; [by right|done|done]).
    + destruct (negb (bool_decide (s = ""%string))); eexists;
        (split_and!; [by left|done|done]) || (split_and!; [by right|done|done]).
    + destruct (assoc "data" message) as [d|] eqn:Hd;
        [|cbn [truthy negb]; eexists; split_and!; [by right|done|done]].
      destruct (truthy (Some d)) eqn:Ht; [done|]. cbn [negb].
      eexists; split_and!; [by right|done|done].
Qed.

(** X20: from the request to the ledger.  A journal, flip-and-feel, mood
    or gratitude message for a user, handled with the badge worker service
    behind the controller, calls the worker of its domain.  When no storage
    call fails the answer is 204 and the user then holds exactly the badges
    held before and those of the rules of the domain whose predicate holds;
    when storage call number [n] of the pass fails, the answer is 500 with
    the error of that call. *)
Theorem X20_message_to_ledger
    (decode : JSON → Outcome JSON) (body : option JSON) (data : JSON)
    (pfields : list (string * JSON)) (dom : ActivityDomain) (u : string)
    (w : World) (calls : list (ActivityDomain * option JSON))
    (Hdata : message_data body = Some data)
    (Hdecode : decode data = Resolved (JObject pfields))
    (Hevent : assoc "eventType" pfields = Some (JString (event_name dom)))
    (Huser : assoc "userId" pfields = Some (JString u))
    (Hne : u ≠ ""%string) :
  let r := handleBadgeAwarding service_on_world decode body
             (mkHandling w calls) in
  worker_calls r.2 = calls ++ [(dom, Some (JString u))]
  ∧ (Forall (λ b, b = false) (faults w) →
     r.1 = Resolved NoContent
     ∧ ∀ u' b,
         BadgesRepository.granted
           (user_badges (db (service_state r.2))) u' b
         ↔ BadgesRepository.granted (user_badges (db w)) u' b
           ∨ (u' = u
              ∧ ∃ rule, rule ∈ catalogue dom ∧ rule_badge rule = b
                        ∧ answer (db w) (rule_check rule u) = true))
  ∧ (∀ n rest c,
       faults w = replicate n false ++ true :: rest →
       plan (db w) u dom !! n = Some c →
       r.1 = Resolved (InternalServerError (StorageError c))).
Proof.
  intros r. subst r.
  rewrite (handle_known_event service_on_world decode body data pfields
             dom u (mkHandling w calls)) by done.
  cbn [fst snd worker_calls service_state service_on_world].
  rewrite worker_run. split_and!; [done| |].
  - intros Hnf. rewrite run_calls_ok by (by apply no_faults_take).
    cbn [fst snd db]. split; [done|]. intros u' b. apply granted_after_plan.
  - intros n rest c Hf Hc. by rewrite (run_calls_fail _ w n rest c).
Qed.

(** ** The further properties on the sample data *)

Lemma X2_witness :
  0 ≤ 1
  ∧ JournalEntryRepository.hasConsecutiveDays sample_journal "u1" 0
    = JournalEntryRepository.hasFirstEntry sample_journal "u1".
Proof.
  assert (0 ≤ 1) as H by lia.
  exact (conj H (proj1 (X2_streak_threshold_at_most_one 0 H)
                   sample_journal "u1"%string)).
Defined.

Lemma X3_witness :
  3 ≤ 7
  ∧ (JournalEntryRepository.hasConsecutiveDays sample_journal "u1" 7 = true →
     JournalEntryRepository.hasConsecutiveDays sample_journal "u1" 3 = true).
Proof.
  assert (3 ≤ 7) as H by lia.
  exact (conj H (proj1 (X3_thresholds_antitone 7 3 H)
                   sample_journal "u1"%string)).
Defined.

Lemma X4_witness :
  JournalEntryRepository.hasConsecutiveDays sample_journal "u1" 3 = true
  ∧ JournalEntryRepository.hasReachedEntryCount sample_journal "u1" 3 = true.
Proof.
  assert (JournalEntryRepository.hasConsecutiveDays sample_journal "u1" 3
          = true) as H by (by vm_compute).
  exact (conj H (proj1 X4_streak_needs_as_many_entries
                   sample_journal "u1"%string 3 H)).
Defined.


Lemma X6_witness :
  JournalEntryRepository.hasConsecutiveDays
    (JournalEntry.mk "j8" "u1" false (day 20001 5) (day 20001 5)
     :: sample_journal) "u1" 4
  = JournalEntryRepository.hasConsecutiveDays sample_journal "u1" 4.
Proof.
  assert (JournalEntry.mk "j2" "u1" false (day 20001 7200000000)
            (day 20001 7200000000) ∈ sample_journal) as Hin.
  { apply (list_elem_of_lookup_2 _ 1%nat). reflexivity. }
  assert (DATE_UTC (day 20001 5) = DATE_UTC (day 20001 7200000000)) as Hd
    by (by vm_compute).
  exact (proj1 X6_same_day_rows_count_once sample_journal "u1"%string
           _ (JournalEntry.mk "j8" "u1" false (day 20001 5) (day 20001 5))
           4 Hin eq_refl eq_refl Hd).
Defined.



Lemma X9_witness :
  history_grows sample_db sample_db_later
  ∧ answer sample_db (JournalHasConsecutiveDays "u1" 3) = true
  ∧ answer sample_db_later (JournalHasConsecutiveDays "u1" 3) = true.
Proof.
  assert (history_grows sample_db sample_db_later) as Hgrows.
  { unfold history_grows, sample_db, sample_db_later.
    cbn [journal_entries gratitude_entries mood_check_ins flip_feel
         flip_feel_responses flip_feel_questions].
    split_and!; try done. by apply submseteq_cons. }
  assert (answer sample_db (JournalHasConsecutiveDays "u1" 3) = true)
    as Htrue by (by vm_compute).
  exact (conj Hgrows (conj Htrue
           (X9_more_history_keeps_answers sample_db sample_db_later _
              Hgrows Htrue))).
Defined.

Lemma X11_witness :
  at_most_one_grant (user_badges sample_db)
  ∧ at_most_one_grant
      (user_badges (db (worker Journal "u1"
                          (sample_world [false; false; false; true])).2)).
Proof.
  assert (at_most_one_grant (user_badges sample_db)) as Hinv.
  { intros uid name. unfold count_grants.
    etrans; [apply length_filter|]. simpl. lia. }
  exact (conj Hinv
           (X11_pass_keeps_grants_unique Journal "u1"%string
              (sample_world [false; false; false; true]) Hinv)).
Defined.

Lemma X12_witness :
  (worker Journal "u1" (sample_world [])).1 = Resolved ()
  ∧ BadgesRepository.granted
      (user_badges (db (worker Journal "u1" (sample_world [])).2))
      "u1" "Mindful Momentum".
Proof.
  assert ((worker Journal "u1" (sample_world [])).1 = Resolved ()) as Hok
    by (by vm_compute).
  split; [done|].
  refine (proj2 (X12_resolved_pass_grants_all_qualifying Journal "u1"%string
                   (sample_world []) Hok "u1"%string
                   "Mindful Momentum"%string) _).
  right. split; [done|].
  exists (mkRule BadgeWorkerService.JOURNAL_3_STREAK
            (λ u, JournalHasConsecutiveDays u 3)).
  split_and!; [|done|by vm_compute].
  apply (list_elem_of_lookup_2 _ 1%nat). reflexivity.
Defined.

Lemma X13_witness :
  (worker Journal "u1" (sample_world [false; false; true])).1
    = Rejected (StorageError (GrantBadgeByName "u1" "New Beginnings"))
  ∧ BadgesRepository.granted
      (user_badges
         (db (worker Journal "u1"
                (mkWorld
                   (db (worker Journal "u1"
                          (sample_world [false; false; true])).2)
                   (day 20003 0) []
                   (trace (worker Journal "u1"
                             (sample_world [false; false; true])).2))).2))
      "u1" "New Beginnings".
Proof.
  split; [by vm_compute|].
  assert ((worker Journal "u1"
             (mkWorld
                (db (worker Journal "u1"
                       (sample_world [false; false; true])).2)
                (day 20003 0) []
                (trace (worker Journal "u1"
                          (sample_world [false; false; true])).2))).1
          = Resolved ()) as Hok by (by vm_compute).
  refine (proj2 (X13_retry_after_failure_converges Journal "u1"%string
                   (sample_world [false; false; true]) (day 20003 0) []
                   Hok "u1"%string "New Beginnings"%string) _).
  right. split; [done|].
  exists (mkRule BadgeWorkerService.JOURNAL_FIRST_ENTRY
            JournalHasFirstEntry).
  split_and!; [|done|by vm_compute].
  apply (list_elem_of_lookup_2 _ 0%nat). reflexivity.
Defined.

Lemma X15_witness :
  Journal ≠ Gratitude
  ∧ trace (worker Gratitude "u1"
             (mkWorld (db (worker Journal "u1" (sample_world [])).2)
                (day 20003 0) [] [])).2
    = trace (worker Gratitude "u1"
               (mkWorld (db (sample_world [])) (day 20003 0) [] [])).2.
Proof.
  assert (Journal ≠ Gratitude) as Hne by done.
  exact (conj Hne
           (proj2 (X15_other_pass_unaffected Journal Gratitude "u1"%string
                     "u1"%string (sample_world []) (day 20003 0) [] []
                     (or_introl Hne)))).
Defined.

Lemma X17_witness :
  message_data (sample_body "journal") = Some (JString "journal")
  ∧ (handleBadgeAwarding service_on_world sample_decode_journal
       (sample_body "journal") (mkHandling (sample_world []) [])).1
    = Resolved NoContent.
Proof.
  split; [done|].
  assert ("u1"%string ≠ ""%string) as Hne by done.
  refine (proj1 (proj2 (proj2
    (X17_known_event_routed_to_its_worker service_on_world
       sample_decode_journal (sample_body "journal") (JString "journal")
       _ Journal "u1"%string (mkHandling (sample_world []) [])
       eq_refl eq_refl eq_refl eq_refl Hne))) _).
  by vm_compute.
Defined.

Lemma X18_witness :
  message_data (Some (JObject [("message", JString "hello")]%string)) = None
  ∧ ∃ resp,
      status resp = 400
      ∧ handleBadgeAwarding service_on_world sample_decode
          (Some (JObject [("message", JString "hello")]%string))
          (mkHandling (sample_world []) [])
        = (Resolved resp, mkHandling (sample_world []) []).
Proof.
  split; [done|].
  destruct (X18_bad_envelope_answered_400
              (Some (JObject [("message", JString "hello")]%string))
              (mkHandling (sample_world []) []) eq_refl)
    as (resp & _ & Hs & Hh).
  exists resp. split; [done|]. exact (Hh service_on_world sample_decode).
Defined.

Lemma X19_witness :
  message_data (sample_body "garbage") = Some (JString "garbage")
  ∧ sample_decode (JString "garbage") = Rejected DecodeError
  ∧ handleBadgeAwarding service_on_world sample_decode
      (sample_body "garbage") (mkHandling (sample_world []) [])
    = (Resolved (InternalServerError DecodeError),
       mkHandling (sample_world []) []).
Proof.
  split_and!; [done|done|].
  exact (proj1 (X19_undecodable_data_answered_500 service_on_world
                  sample_decode (sample_body "garbage") (JString "garbage")
                  DecodeError (mkHandling (sample_world []) [])
                  eq_refl eq_refl)).
Defined.

Lemma X20_witness :
  message_data (sample_body "journal") = Some (JString "journal")
  ∧ (handleBadgeAwarding service_on_world sample_decode_journal
       (sample_body "journal")
       (mkHandling (sample_world [false; true]) [])).1
    = Resolved (InternalServerError (StorageError (JournalHasFirstEntry "u1"))).
Proof.
  split; [done|].
  assert ("u1"%string ≠ ""%string) as Hne by done.
  assert (plan (db (sample_world [false; true])) "u1" Journal !! 1%nat
          = Some (JournalHasFirstEntry "u1")) as Hc by (by vm_compute).
  exact (proj2 (proj2
    (X20_message_to_ledger sample_decode_journal
       (sample_body "journal") (JString "journal") _ Journal "u1"%string
       (sample_world [false; true]) []
       eq_refl eq_refl eq_refl eq_refl Hne)) 1%nat [] _ eq_refl Hc).
Defined.

(** * Properties of the environment configuration *)

Section env_config.
Context {number : Type}.
Variable coerce_number : string → option number.
Variables (n8080 n5432 : number).

Lemma z_enum_default_issue (values : list string) (d : string)
    (v : option string) :
  EnvConfig.z_enum_default values d v = None
  ↔ ∃ s, v = Some s ∧ s ∉ values.
Proof.
  unfold EnvConfig.z_enum_default. destruct v as [s|].
  - case_bool_decide; split; try done.
    + by intros (s' & [= <-] & ?).
    + intros _. by exists s.
  - split; [done|]. by intros (s & ? & _).
Qed.

Lemma z_coerce_number_default_issue (d : number) (v : option string) :
  EnvConfig.z_coerce_number_default coerce_number d v = None
  ↔ ∃ s, v = Some s ∧ coerce_number s = None.
Proof.
  unfold EnvConfig.z_coerce_number_default. destruct v as [s|].
  - split; [intros ?; by exists s|by intros (s' & [= <-] & ?)].
  - split; [done|]. by intros (s & ? & _).
Qed.

Lemma z_string_min1_default_issue (d : string) (v : option string) :
  EnvConfig.z_string_min1_default d v = None ↔ v = Some ""%string.
Proof.
  unfold EnvConfig.z_string_min1_default. destruct v as [s|]; [|done].
  case_bool_decide; [by subst|]. split; [done|]. by intros [= ->].
Qed.

(** X21: when start-up validation fails.  The environment is rejected
    exactly when NODE_ENV is set to something other than development,
    production or test, or PORT or DB_PORT is set to a string that does not
    coerce to a number, or one of DB_USER, DB_NAME, PUBSUB_JOURNAL_TOPIC and
    PUBSUB_ACTIVITY_TOPIC is set to the empty string.  Unset variables never
    fail, and neither do an empty DB_HOST or DB_PASSWORD. *)
Theorem X21_environment_rejected_iff (env : gmap string string) :
  EnvConfig.safeParse coerce_number n8080 n5432 env = None
  ↔ (∃ s, env !! "NODE_ENV"%string = Some s
          ∧ s ∉ ["development"; "production"; "test"]%string)
    ∨ (∃ s, env !! "PORT"%string = Some s ∧ coerce_number s = None)
    ∨ (∃ s, env !! "DB_PORT"%string = Some s ∧ coerce_number s = None)
    ∨ env !! "DB_USER"%string = Some ""%string
    ∨ env !! "DB_NAME"%string = Some ""%string
    ∨ env !! "PUBSUB_JOURNAL_TOPIC"%string = Some ""%string
    ∨ env !! "PUBSUB_ACTIVITY_TOPIC"%string = Some ""%string.
Proof.
  rewrite <-(z_enum_default_issue _ "development"),
    <-(z_coerce_number_default_issue n8080),
    <-(z_coerce_number_default_issue n5432),
    <-(z_string_min1_default_issue "postgres"),
    <-(z_string_min1_default_issue "heron_wellnest_db"),
    <-(z_string_min1_default_issue "journal-topic"),
    <-(z_string_min1_default_issue "activity-topic").
  unfold EnvConfig.safeParse, EnvConfig.z_string_default.
  destruct (EnvConfig.z_enum_default _ _ _); [|cbn; tauto].
  destruct (EnvConfig.z_coerce_number_default _ n8080 _); [|cbn; tauto].
  destruct (EnvConfig.z_coerce_number_default _ n5432 _); [|cbn; tauto].
  destruct (EnvConfig.z_string_min1_default "postgres" _); [|cbn; tauto].
  destruct (EnvConfig.z_string_min1_default "heron_wellnest_db" _);
    [|cbn; tauto].
  destruct (EnvConfig.z_string_min1_default "journal-topic" _);
    [|cbn; tauto].
  destruct (EnvConfig.z_string_min1_default "activity-topic" _);
    [|cbn; tauto].
  cbn. split; [done|]. intros [?|[?|[?|[?|[?|[?|?]]]]]]; done.
Qed.

(** X22: a variable that is set is taken as it is, and a default fills in
    only for a variable that is unset.  When validation succeeds, every
    string field is the value of its variable if that is set (the empty
    string included, for DB_HOST and DB_PASSWORD) and its default
    otherwise, and each port is the coerced value of its variable if set
    and 8080 or 5432 otherwise. *)
Theorem X22_environment_values (env : gmap string string)
    (e : EnvConfig.Env)
    (Hok : EnvConfig.safeParse coerce_number n8080 n5432 env = Some e) :
  EnvConfig.NODE_ENV e = default "development"%string (env !! "NODE_ENV"%string)
  ∧ EnvConfig.DB_HOST e = default "localhost"%string (env !! "DB_HOST"%string)
  ∧ EnvConfig.DB_USER e = default "postgres"%string (env !! "DB_USER"%string)
  ∧ EnvConfig.DB_PASSWORD e = default ""%string (env !! "DB_PASSWORD"%string)
  ∧ EnvConfig.DB_NAME e
    = default "heron_wellnest_db"%string (env !! "DB_NAME"%string)
  ∧ EnvConfig.PUBSUB_JOURNAL_TOPIC e
    = default "journal-topic"%string (env !! "PUBSUB_JOURNAL_TOPIC"%string)
  ∧ EnvConfig.PUBSUB_ACTIVITY_TOPIC e
    = default "activity-topic"%string (env !! "PUBSUB_ACTIVITY_TOPIC"%string)
  ∧ Some (EnvConfig.PORT e)
    = from_option coerce_number (Some n8080) (env !! "PORT"%string)
  ∧ Some (EnvConfig.DB_PORT e)
    = from_option coerce_number (Some n5432) (env !! "DB_PORT"%string).
Proof.
  revert Hok.
  unfold EnvConfig.safeParse, EnvConfig.z_enum_default,
    EnvConfig.z_coerce_number_default, EnvConfig.z_string_default,
    EnvConfig.z_string_min1_default.
  destruct (env !! "NODE_ENV"%string) as [ne|];
    [case_bool_decide; [|done]|]; cbn [mbind option_bind].
  all: destruct (env !! "PORT"%string) as [p|];
    [destruct (coerce_number p) eqn:Hp; [|done]|]; cbn [mbind option_bind].
  all: destruct (env !! "DB_PORT"%string) as [dp|];
    [destruct (coerce_number dp) eqn:Hdp; [|done]|]; cbn [mbind option_bind].
  all: destruct (env !! "DB_USER"%string) as [du|];
    [case_bool_decide; [done|]|]; cbn [mbind option_bind].
  all: destruct (env !! "DB_NAME"%string) as [dn|];
    [case_bool_decide; [done|]|]; cbn [mbind option_bind].
  all: destruct (env !! "PUBSUB_JOURNAL_TOPIC"%string) as [jt|];
    [case_bool_decide; [done|]|]; cbn [mbind option_bind].
  all: destruct (env !! "PUBSUB_ACTIVITY_TOPIC"%string) as [at_|];
    [case_bool_decide; [done|]|]; cbn [mbind option_bind].
  all: intros [= <-]; cbn; by rewrite ?Hp, ?Hdp.
Qed.

(** X23: variables the schema does not name are ignored: setting or
    removing any other variable changes neither whether validation
    succeeds nor the configuration it yields. *)
Theorem X23_other_variables_ignored (env : gmap string string)
    (k v : string) (Hother : k ∉ EnvConfig.variables) :
  EnvConfig.safeParse coerce_number n8080 n5432 (<[k:=v]> env)
  = EnvConfig.safeParse coerce_number n8080 n5432 env
  ∧ EnvConfig.safeParse coerce_number n8080 n5432 (delete k env)
    = EnvConfig.safeParse coerce_number n8080 n5432 env.
Proof.
  unfold EnvConfig.variables in Hother.
  rewrite !not_elem_of_cons in Hother.
  destruct Hother as (? & ? & ? & ? & ? & ? & ? & ? & ? & _).
  unfold EnvConfig.safeParse.
  by rewrite !lookup_insert_ne, !lookup_delete_ne by done.
Qed.

End env_config.

Lemma X22_witness :
  EnvConfig.safeParse EnvConfig.sample_coerce 8080 5432 EnvConfig.sample_env
  = Some EnvConfig.sample_config
  ∧ EnvConfig.DB_HOST EnvConfig.sample_config
    = default "localhost"%string (EnvConfig.sample_env !! "DB_HOST"%string).
Proof.
  assert (EnvConfig.safeParse EnvConfig.sample_coerce 8080 5432
            EnvConfig.sample_env = Some EnvConfig.sample_config) as Hok
    by (vm_compute; reflexivity).
  split; [exact Hok|].
  exact (proj1 (proj2 (X22_environment_values EnvConfig.sample_coerce
                         8080 5432 EnvConfig.sample_env
                         EnvConfig.sample_config Hok))).
Defined.

Lemma X23_witness :
  ("HOME"%string ∉ EnvConfig.variables)
  ∧ EnvConfig.safeParse EnvConfig.sample_coerce 8080 5432
      (<["HOME"%string:="/home"%string]> EnvConfig.sample_env)
    = EnvConfig.safeParse EnvConfig.sample_coerce 8080 5432
        EnvConfig.sample_env.
Proof.
  assert ("HOME"%string ∉ EnvConfig.variables) as Hother
    by (apply (bool_decide_unpack _); vm_compute; reflexivity).
  split; [exact Hother|].
  exact (proj1 (X23_other_variables_ignored EnvConfig.sample_coerce
                  8080 5432 EnvConfig.sample_env "HOME" "/home" Hother)).
Defined.
